(** * A shallow embedding of the JIRA proxy server (src/api/server.js)

    The source file holds two revisions of one Express server, one after the
    other.  The first (lines 1-528) registers the credential-carrying routes
    and a catch-all passthrough [/^\/jira\/.*/]; the second (lines 530-1219)
    adds the [/jira/hr/*] routes, which use a credential set read from the
    process environment, and narrows the passthrough to
    [/^\/jira\/rest\/api\/.*/].  Both route tables are modelled ([V1], [V2]).

    JavaScript values are modelled by [jval]; strings are Rocq strings whose
    characters are UTF-16 code units below 256; numbers are integers (JS
    doubles with a fraction are outside the model).  An upstream call made
    with node-fetch is an explicit [OCall] node of a handler's outcome, so a
    handler that answers without calling upstream is an [ODone] node. *)

From Stdlib Require Import String Ascii ZArith List Bool Lia.
From Stdlib Require Import Numbers.DecimalString.
Import ListNotations.
Open Scope string_scope.
Open Scope bool_scope.

(** ** JavaScript values *)

#[local] Set Warnings "-register-all".

Inductive jval : Type :=
| JUndef
| JNull
| JBool (b : bool)
| JNum (z : Z)
| JStr (s : string)
| JArr (l : list jval)
| JObj (fields : list (string * jval)).

(** Truthiness, as used by [||], [&&] and [!]. *)
Definition truthy (v : jval) : bool :=
  match v with
  | JUndef | JNull => false
  | JBool b => b
  | JNum z => negb (Z.eqb z 0)
  | JStr s => negb (String.eqb s EmptyString)
  | JArr _ | JObj _ => true
  end.

(** [a || b] *)
Definition js_or (a b : jval) : jval := if truthy a then a else b.

Definition Z_to_string (z : Z) : string :=
  NilEmpty.string_of_int (Z.to_int z).

(** The string [String(v)] gives when it does not throw (see [to_string]
    below); an array is joined with commas, its undefined and null elements
    printing as the empty string. *)
Fixpoint to_str (v : jval) : string :=
  match v with
  | JUndef => "undefined"
  | JNull => "null"
  | JBool true => "true"
  | JBool false => "false"
  | JNum z => Z_to_string z
  | JStr s => s
  | JArr l =>
      (fix join (l : list jval) : string :=
         match l with
         | [] => EmptyString
         | x :: r =>
             let sx := match x with JUndef | JNull => EmptyString | _ => to_str x end in
             match r with
             | [] => sx
             | _ => sx ++ "," ++ join r
             end
         end) l
  | JObj _ => "[object Object]"
  end.

(** ** Exceptions

    The handlers' bodies run inside [try { ... } catch (err) { ... }]; a
    thrown value is kept with its [String(err)]. *)
Inductive exn : Type :=
| TypeError (msg : string)
| Raised (str : string).

Definition exn_string (e : exn) : string :=
  match e with
  | TypeError m => "TypeError: " ++ m
  | Raised s => s
  end.

Inductive res (A : Type) : Type :=
| Throw (e : exn)
| Ok (a : A).
Arguments Throw {A} e.
Arguments Ok {A} a.

Definition bind {A B : Type} (m : res A) (f : A -> res B) : res B :=
  match m with Throw e => Throw e | Ok a => f a end.

Notation "'let*' x ':=' m 'in' f" := (bind m (fun x => f))
  (at level 200, x name, m at level 100, f at level 200).

(** Whether [String(v)] throws.  An object parsed from JSON with its own
    [toString] key has no callable [toString] (the key's value is never a
    function) and [Object.prototype.valueOf] returns the object itself, so
    converting it to a primitive throws; an array is joined, so it throws
    when one of its elements does. *)
Fixpoint str_throws (v : jval) : bool :=
  match v with
  | JArr l =>
      (fix any (l : list jval) : bool :=
         match l with
         | [] => false
         | x :: r => str_throws x || any r
         end) l
  | JObj fs => existsb (fun kv => String.eqb (fst kv) "toString") fs
  | _ => false
  end.

(** [String(v)]; also [v] inside a template literal and [v] as a value of
    the record given to [new URLSearchParams(...)]. *)
Definition to_string (v : jval) : res string :=
  if str_throws v then Throw (TypeError "Cannot convert object to primitive value")
  else Ok (to_str v).

(** Property lookup in an object literal produced by [JSON.parse]: with a
    duplicated key the last binding is the one that is kept. *)
Fixpoint obj_get (fs : list (string * jval)) (k : string) : jval :=
  match fs with
  | [] => JUndef
  | (k', v) :: r =>
      match obj_get r k with
      | JUndef => if String.eqb k k' then v else JUndef
      | w => w
      end
  end.

(** [v?.k]: undefined on a nullish value; a named (non-index) property of an
    array or of a primitive is undefined. *)
Definition opt_get (v : jval) (k : string) : jval :=
  match v with
  | JObj fs => obj_get fs k
  | _ => JUndef
  end.

(** ** Strings *)

(** JS whitespace below U+0100 (what [trim] removes and [\s] matches). *)
Definition is_ws (c : ascii) : bool :=
  let n := nat_of_ascii c in
  (n =? 9)%nat || (n =? 10)%nat || (n =? 11)%nat || (n =? 12)%nat
  || (n =? 13)%nat || (n =? 32)%nat || (n =? 160)%nat.

Fixpoint drop_leading (p : ascii -> bool) (s : string) : string :=
  match s with
  | EmptyString => EmptyString
  | String c r => if p c then drop_leading p r else s
  end.

Fixpoint drop_trailing (p : ascii -> bool) (s : string) : string :=
  match s with
  | EmptyString => EmptyString
  | String c r =>
      match drop_trailing p r with
      | EmptyString => if p c then EmptyString else String c EmptyString
      | r' => String c r'
      end
  end.

(** [String.prototype.trim] *)
Definition trim (s : string) : string := drop_trailing is_ws (drop_leading is_ws s).

Definition lower (c : ascii) : ascii :=
  let n := nat_of_ascii c in
  if ((65 <=? n)%nat && (n <=? 90)%nat) then ascii_of_nat (n + 32) else c.

(** [p] is a prefix of [s], ignoring ASCII case ([p] is lower case). *)
Fixpoint prefix_ci (p s : string) : bool :=
  match p, s with
  | EmptyString, _ => true
  | String a p', String b s' => Ascii.eqb a (lower b) && prefix_ci p' s'
  | String _ _, EmptyString => false
  end.

(** [/^https?:\/\//i.test(url)] *)
Definition has_scheme (url : string) : bool :=
  prefix_ci "http://" url || prefix_ci "https://" url.

Definition is_slash (c : ascii) : bool := Ascii.eqb c "/"%char.

(** [url.replace(/\/+$/, '')] *)
Definition strip_slashes (url : string) : string := drop_trailing is_slash url.

(** [normalizeServerUrl(raw)]; [None] is [null].  [String(raw)] throws
    for an object with its own [toString] key. *)
Definition normalizeServerUrl (raw : jval) : res (option string) :=
  if negb (truthy raw) then Ok None
  else
    let* s := to_string raw in
    let url := trim s in
    if String.eqb url EmptyString then Ok None
    else
      let url := if has_scheme url then url else "https://" ++ url in
      Ok (Some (strip_slashes url)).

Fixpoint last_char (s : string) : option ascii :=
  match s with
  | EmptyString => None
  | String c EmptyString => Some c
  | String _ r => last_char r
  end.

Example normalize_bare : normalizeServerUrl (JStr "foo.atlassian.net") = Ok (Some "https://foo.atlassian.net").
Proof. reflexivity. Qed.
Example normalize_ws_slash : normalizeServerUrl (JStr "foo.atlassian.net /") = Ok (Some "https://foo.atlassian.net ").
Proof. reflexivity. Qed.
Example normalize_slash_only : normalizeServerUrl (JStr "/") = Ok (Some "https:").
Proof. reflexivity. Qed.
Example normalize_to_string_key :
  normalizeServerUrl (JObj [("toString", JNum 1)]) = Throw (TypeError "Cannot convert object to primitive value").
Proof. reflexivity. Qed.

(** ** The regular expressions of the source

    A backtracking matcher over the constructs the source's patterns use:
    a one-character class, concatenation, a greedy [?] and a greedy [*] of a
    character class.  [re_match r s k] holds when some way of matching [r]
    against a prefix of [s] leaves a rest accepted by [k]. *)

Inductive regex : Type :=
| RClass (p : ascii -> bool)
| RSeq (r1 r2 : regex)
| ROpt (r : regex)
| RStar (p : ascii -> bool).

Fixpoint re_match (r : regex) (s : string) (k : string -> bool) : bool :=
  match r with
  | RClass p => match s with String c s' => p c && k s' | EmptyString => false end
  | RSeq r1 r2 => re_match r1 s (fun s' => re_match r2 s' k)
  | ROpt r1 => re_match r1 s k || k s
  | RStar p =>
      (fix star (s : string) : bool :=
         match s with
         | String c s' => (p c && star s') || k s
         | EmptyString => k s
         end) s
  end.

(** [x+] is [x x*]. *)
Definition RPlus (p : ascii -> bool) : regex := RSeq (RClass p) (RStar p).

(** [re.test(s)] for a pattern anchored by [^] and [$] (no [m] flag, so [$]
    matches only at the end of the input). *)
Definition re_test_anchored (r : regex) (s : string) : bool :=
  re_match r s (fun rest => String.eqb rest EmptyString).

Definition is_digit (c : ascii) : bool :=
  let n := nat_of_ascii c in (48 <=? n)%nat && (n <=? 57)%nat.

(** [[wdhm]] *)
Definition is_unit (c : ascii) : bool :=
  Ascii.eqb c "w"%char || Ascii.eqb c "d"%char || Ascii.eqb c "h"%char || Ascii.eqb c "m"%char.

(** [(\d+[wdhm])?] *)
Definition tok : regex := ROpt (RSeq (RPlus is_digit) (RClass is_unit)).

(** [/^(\d+[wdhm])?\s*(\d+[wdhm])?\s*(\d+[wdhm])?\s*(\d+[wdhm])?$/] *)
Definition timeSpentRegex : regex :=
  RSeq tok (RSeq (RStar is_ws) (RSeq tok (RSeq (RStar is_ws) (RSeq tok (RSeq (RStar is_ws) tok))))).

(** [timeSpentRegex.test(timeSpent.trim())] for a string [timeSpent]. *)
Definition timeSpent_valid (timeSpent : string) : bool :=
  re_test_anchored timeSpentRegex (trim timeSpent).

Example ts_ex1 : timeSpent_valid "2h 30m" = true. Proof. reflexivity. Qed.
Example ts_ex2 : timeSpent_valid "30m 2h" = true. Proof. reflexivity. Qed.
Example ts_ex3 : timeSpent_valid "2x" = false. Proof. reflexivity. Qed.
Example ts_ex4 : timeSpent_valid "1w 2d 3h 4m 5m" = false. Proof. reflexivity. Qed.
Example ts_ex5 : timeSpent_valid "  " = true. Proof. reflexivity. Qed.

(** ** Library functions used by the handlers *)

(** [JSON.parse]: the handlers only see its result, so they are written
    against any parser ([Section Handlers] below).  [json_parse_subset] is
    the concrete parser used to evaluate them: it follows the JSON grammar
    except that a number must be an integer literal and a [\u] escape must
    denote a code unit below 256. *)
Inductive parse_result : Type :=
| Parsed (v : jval)
| ParseError (reason : string).

(** The double-quote character. *)
Definition dq : ascii := ascii_of_nat 34.

Definition json_ws (c : ascii) : bool :=
  let n := nat_of_ascii c in (n =? 32)%nat || (n =? 9)%nat || (n =? 10)%nat || (n =? 13)%nat.

Definition digit_val (c : ascii) : Z := Z.of_nat (nat_of_ascii c - 48).

Definition hex_val (c : ascii) : option nat :=
  let n := nat_of_ascii c in
  if (48 <=? n)%nat && (n <=? 57)%nat then Some (n - 48)%nat
  else if (97 <=? n)%nat && (n <=? 102)%nat then Some (n - 87)%nat
  else if (65 <=? n)%nat && (n <=? 70)%nat then Some (n - 55)%nat
  else None.

(** The characters of a string literal after its opening quote. *)
Fixpoint json_str (s : string) : option (string * string) :=
  match s with
  | EmptyString => None
  | String c r =>
      if Ascii.eqb c dq then Some (EmptyString, r)
      else if Ascii.eqb c "\"%char then
        match r with
        | String e r' =>
            let simple (d : ascii) :=
              match json_str r' with Some (t, r'') => Some (String d t, r'') | None => None end in
            if Ascii.eqb e dq then simple dq
            else if Ascii.eqb e "\"%char then simple "\"%char
            else if Ascii.eqb e "/"%char then simple "/"%char
            else if Ascii.eqb e "b"%char then simple (ascii_of_nat 8)
            else if Ascii.eqb e "f"%char then simple (ascii_of_nat 12)
            else if Ascii.eqb e "n"%char then simple (ascii_of_nat 10)
            else if Ascii.eqb e "r"%char then simple (ascii_of_nat 13)
            else if Ascii.eqb e "t"%char then simple (ascii_of_nat 9)
            else if Ascii.eqb e "u"%char then
              match r' with
              | String h1 (String h2 (String h3 (String h4 r''))) =>
                  match hex_val h1, hex_val h2, hex_val h3, hex_val h4 with
                  | Some 0%nat, Some 0%nat, Some a, Some b =>
                      match json_str r'' with
                      | Some (t, q) => Some (String (ascii_of_nat (a * 16 + b)) t, q)
                      | None => None
                      end
                  | _, _, _, _ => None
                  end
              | _ => None
              end
            else None
        | EmptyString => None
        end
      else if (nat_of_ascii c <? 32)%nat then None
      else match json_str r with Some (t, r') => Some (String c t, r') | None => None end
  end.

Fixpoint json_digits (acc : Z) (s : string) : Z * string :=
  match s with
  | String c r => if is_digit c then json_digits (acc * 10 + digit_val c)%Z r else (acc, s)
  | EmptyString => (acc, s)
  end.

(** An integer literal: [-?(0|[1-9][0-9]* )], not followed by a fraction or
    an exponent. *)
Definition json_int (s : string) : option (jval * string) :=
  let '(neg, s) := match s with
                   | String "-"%char r => (true, r)
                   | _ => (false, s)
                   end in
  let body :=
    match s with
    | String "0"%char r => Some (0%Z, r)
    | String c r => if is_digit c then Some (json_digits (digit_val c) r) else None
    | EmptyString => None
    end in
  match body with
  | Some (z, r) =>
      match r with
      | String c _ =>
          if Ascii.eqb c "."%char || Ascii.eqb c "e"%char || Ascii.eqb c "E"%char
             || is_digit c then None
          else Some (JNum (if neg then Z.opp z else z), r)
      | EmptyString => Some (JNum (if neg then Z.opp z else z), r)
      end
  | None => None
  end.

Fixpoint json_value (n : nat) (s : string) : option (jval * string) :=
  match n with
  | O => None
  | S n =>
      match drop_leading json_ws s with
      | String "n"%char (String "u"%char (String "l"%char (String "l"%char r))) => Some (JNull, r)
      | String "t"%char (String "r"%char (String "u"%char (String "e"%char r))) => Some (JBool true, r)
      | String "f"%char (String "a"%char (String "l"%char (String "s"%char (String "e"%char r)))) =>
          Some (JBool false, r)
      | String c r as s' =>
          if Ascii.eqb c dq then
            match json_str r with Some (t, r') => Some (JStr t, r') | None => None end
          else if Ascii.eqb c "["%char then
            match drop_leading json_ws r with
            | String "]"%char r' => Some (JArr [], r')
            | _ => json_elems n r []
            end
          else if Ascii.eqb c "{"%char then
            match drop_leading json_ws r with
            | String "}"%char r' => Some (JObj [], r')
            | _ => json_members n r []
            end
          else json_int s'
      | EmptyString => None
      end
  end
with json_elems (n : nat) (s : string) (acc : list jval) : option (jval * string) :=
  match n with
  | O => None
  | S n =>
      match json_value n s with
      | Some (v, r) =>
          match drop_leading json_ws r with
          | String ","%char r' => json_elems n r' (v :: acc)
          | String "]"%char r' => Some (JArr (rev (v :: acc)), r')
          | _ => None
          end
      | None => None
      end
  end
with json_members (n : nat) (s : string) (acc : list (string * jval)) : option (jval * string) :=
  match n with
  | O => None
  | S n =>
      match drop_leading json_ws s with
      | String c r =>
          if negb (Ascii.eqb c dq) then None else
          match json_str r with
          | Some (k, r1) =>
              match drop_leading json_ws r1 with
              | String ":"%char r2 =>
                  match json_value n r2 with
                  | Some (v, r3) =>
                      match drop_leading json_ws r3 with
                      | String ","%char r4 => json_members n r4 ((k, v) :: acc)
                      | String "}"%char r4 => Some (JObj (rev ((k, v) :: acc)), r4)
                      | _ => None
                      end
                  | None => None
                  end
              | _ => None
              end
          | None => None
          end
      | EmptyString => None
      end
  end.

Definition json_parse_subset (s : string) : parse_result :=
  match json_value (2 * String.length s + 2) s with
  | Some (v, r) =>
      if String.eqb (drop_leading json_ws r) EmptyString then Parsed v
      else ParseError "Unexpected non-whitespace character after JSON"
  | None =>
      if String.eqb (drop_leading json_ws s) EmptyString then ParseError "Unexpected end of JSON input"
      else ParseError "Unexpected token in JSON"
  end.

Example json_ex1 :
  json_parse_subset ("{" ++ String dq "a" ++ String dq ": [1, -20, true, null], "
                     ++ String dq "b" ++ String dq ": " ++ String dq "x\ny" ++ String dq "}")
  = Parsed (JObj [("a", JArr [JNum 1; JNum (-20); JBool true; JNull]);
                  ("b", JStr ("x" ++ String (ascii_of_nat 10) "y"))]).
Proof. reflexivity. Qed.

(** UTF-8 bytes of a string of code units below 256. *)
Fixpoint utf8_bytes (s : string) : list nat :=
  match s with
  | EmptyString => []
  | String c r =>
      let n := nat_of_ascii c in
      (if (n <? 128)%nat then [n] else [192 + n / 64; 128 + n mod 64])%nat ++ utf8_bytes r
  end.

Definition b64_alphabet : string :=
  "ABCDEFGHIJKLMNOPQRSTUVWXYZabcdefghijklmnopqrstuvwxyz0123456789+/".

Definition b64_char (n : nat) : string :=
  match String.get n b64_alphabet with Some c => String c EmptyString | None => EmptyString end.

Fixpoint b64_bytes (l : list nat) : string :=
  match l with
  | a :: b :: c :: r =>
      b64_char (a / 4) ++ b64_char ((a mod 4) * 16 + b / 16)
      ++ b64_char ((b mod 16) * 4 + c / 64) ++ b64_char (c mod 64) ++ b64_bytes r
  | [a; b] =>
      b64_char (a / 4) ++ b64_char ((a mod 4) * 16 + b / 16) ++ b64_char ((b mod 16) * 4) ++ "="
  | [a] => b64_char (a / 4) ++ b64_char ((a mod 4) * 16) ++ "=="
  | [] => EmptyString
  end.

(** [Buffer.from(s).toString("base64")] *)
Definition base64 (s : string) : string := b64_bytes (utf8_bytes s).

Example base64_ex : base64 "u:t" = "dTp0". Proof. reflexivity. Qed.

Definition hex_digit (n : nat) : string :=
  match String.get n "0123456789ABCDEF" with Some c => String c EmptyString | None => EmptyString end.

(** One byte in [application/x-www-form-urlencoded] form. *)
Definition form_byte (b : nat) : string :=
  let alnum := ((48 <=? b)%nat && (b <=? 57)%nat) || ((65 <=? b)%nat && (b <=? 90)%nat)
               || ((97 <=? b)%nat && (b <=? 122)%nat) in
  let safe := (b =? 42)%nat || (b =? 45)%nat || (b =? 46)%nat || (b =? 95)%nat in
  if (b =? 32)%nat then "+"
  else if alnum || safe then String (ascii_of_nat b) EmptyString
  else "%" ++ hex_digit (b / 16) ++ hex_digit (b mod 16).

Definition form_encode (s : string) : string :=
  fold_right (fun b acc => form_byte b ++ acc) EmptyString (utf8_bytes s).

(** [new URLSearchParams(pairs).toString()] *)
Fixpoint search_params (ps : list (string * string)) : string :=
  match ps with
  | [] => EmptyString
  | [(k, v)] => form_encode k ++ "=" ++ form_encode v
  | (k, v) :: r => form_encode k ++ "=" ++ form_encode v ++ "&" ++ search_params r
  end.

Example search_params_ex :
  search_params [("jql", "a = b"); ("maxResults", "100")] = "jql=a+%3D+b&maxResults=100".
Proof. reflexivity. Qed.

(** [s.startsWith(p)] *)
Fixpoint starts_with (p s : string) : bool :=
  match p, s with
  | EmptyString, _ => true
  | String a p', String b s' => Ascii.eqb a b && starts_with p' s'
  | String _ _, EmptyString => false
  end.

(** [s.includes(p)] *)
Fixpoint includes (s p : string) : bool :=
  starts_with p s || match s with EmptyString => false | String _ r => includes r p end.

(** [s.replace(/^p/, '')] for a literal [p]. *)
Definition strip_prefix (p s : string) : string :=
  if starts_with p s then substring (String.length p) (String.length s - String.length p) s else s.

(** ** Requests, upstream calls and replies *)

(** An inbound request as the handlers see it, after [express.json()]:
    [rq_path] is [req.path], [rq_url] is [req.originalUrl] (the path and
    the query string), [rq_headers] has lower-cased names, [rq_query] is
    [req.query] and [rq_body] is [req.body]. *)
Record request : Type := mkRequest {
  rq_method : string;
  rq_path : string;
  rq_url : string;
  rq_headers : list (string * string);
  rq_query : list (string * jval);
  rq_body : jval
}.

(** [req.headers[name]] *)
Definition header (req : request) (name : string) : jval :=
  match find (fun kv => String.eqb (fst kv) name) (rq_headers req) with
  | Some (_, v) => JStr v
  | None => JUndef
  end.

(** [req.query[name]] *)
Definition query (req : request) (name : string) : jval := obj_get (rq_query req) name.

(** The body handed to [fetch]: none, or [JSON.stringify(v)]. *)
Inductive ubody : Type :=
| UNoBody
| UJson (v : jval).

Record upstream_req : Type := mkUpstream {
  u_url : string;
  u_method : string;
  u_headers : list (string * string);
  u_body : ubody
}.

(** A response of the upstream server; [r_ctype] is the [content-type]
    header, [r_text] the body as [response.text()] returns it. *)
Record upstream_resp : Type := mkResp {
  r_status : Z;
  r_statusText : string;
  r_ctype : option string;
  r_text : string
}.

(** What [await fetch(...)] yields: a response, or a rejection whose
    [String(err)] is given. *)
Inductive fetch_result : Type :=
| Resp (r : upstream_resp)
| NetErr (err : string).

(** What a handler sends: [res.status(s).json(v)] or [res.status(s).send(t)]. *)
Inductive reply : Type :=
| RJson (status : Z) (v : jval)
| RText (status : Z) (t : string).

(** A handler either answers at once or makes one upstream call and
    answers from its result. *)
Inductive outcome : Type :=
| ODone (r : reply)
| OCall (q : upstream_req) (k : fetch_result -> reply).

(** Running an outcome against a mock upstream: the calls it made and the
    reply. *)
Definition run (upstream : upstream_req -> fetch_result) (o : outcome) : list upstream_req * reply :=
  match o with
  | ODone r => ([], r)
  | OCall q k => ([q], k (upstream q))
  end.

(** [v.k] on any value: reading a property of undefined or null throws. *)
Definition get_prop (v : jval) (k : string) : res jval :=
  match v with
  | JUndef => Throw (TypeError ("Cannot read properties of undefined (reading '" ++ k ++ "')"))
  | JNull => Throw (TypeError ("Cannot read properties of null (reading '" ++ k ++ "')"))
  | _ => Ok (opt_get v k)
  end.

(** [name.trim()]: only strings have [trim]. *)
Definition js_trim (name : string) (v : jval) : res string :=
  match v with
  | JStr s => Ok (trim s)
  | JUndef => Throw (TypeError ("Cannot read properties of undefined (reading 'trim')"))
  | JNull => Throw (TypeError ("Cannot read properties of null (reading 'trim')"))
  | _ => Throw (TypeError (name ++ ".trim is not a function"))
  end.

(** [mask(s)]; its result is only logged, what matters is whether it
    throws.  On a string or an array [s.length] is its length and the two
    slices are converted by the template literal.  On a number or a boolean
    [s.length] is undefined, so the comparison with 8 is false and
    [s.slice] is not a function.  An object is modelled as if it had no
    [length] key (the same throw); an object whose own [length] compares
    [<= 8] would log ["****"] instead, a case no statement below relies on:
    every one of them either assumes [mask] returns or concerns a number or
    a boolean token. *)
Definition mask (v : jval) : res string :=
  if negb (truthy v) then Ok EmptyString
  else match v with
       | JStr s =>
           let n := String.length s in
           if (n <=? 8)%nat then Ok "****"
           else Ok (substring 0 4 s ++ "..." ++ substring (n - 4) 4 s)
       | JArr l =>
           let n := List.length l in
           if (n <=? 8)%nat then Ok "****"
           else
             let* a := to_string (JArr (firstn 4 l)) in
             let* b := to_string (JArr (skipn (n - 4) l)) in
             Ok (a ++ "..." ++ b)
       | _ => Throw (TypeError "s.slice is not a function")
       end.

(** [!a || !b || !c] on the three credentials. *)
Definition creds_missing (su u t : jval) : bool :=
  negb (truthy su) || negb (truthy u) || negb (truthy t).

(** [normalizeServerUrl]'s result as a JS value ([null] for [None]). *)
Definition server_jval (o : option string) : jval :=
  match o with Some s => JStr s | None => JNull end.

Record creds : Type := mkCreds {
  serverUrl : option string;
  username : jval;
  apiToken : jval
}.

(** [extractCredentials(req)]: per field, body, else header, else query;
    it throws when [normalizeServerUrl] does. *)
Definition extractCredentials (req : request) : res creds :=
  let serverRaw :=
    js_or (js_or (opt_get (rq_body req) "serverUrl") (header req "x-jira-server")) (query req "serverUrl") in
  let username :=
    js_or (js_or (opt_get (rq_body req) "username") (header req "x-jira-user")) (query req "username") in
  let apiToken :=
    js_or (js_or (opt_get (rq_body req) "apiToken") (header req "x-jira-token")) (query req "apiToken") in
  let* serverUrl := normalizeServerUrl serverRaw in
  Ok (mkCreds serverUrl username apiToken).

(** What the handlers read besides the request: the process environment
    read by [getHRCredentials], and [new Date().toISOString()] at the time
    of the request (the health check's timestamp). *)
Record env : Type := mkEnv {
  HR_JIRA_SERVER_URL : option string;
  HR_JIRA_USERNAME : option string;
  HR_JIRA_API_TOKEN : option string;
  now_iso : string
}.

Definition env_val (o : option string) : jval :=
  match o with Some s => JStr s | None => JUndef end.

(** [getHRCredentials()] *)
Definition getHRCredentials (e : env) : jval * jval * jval :=
  (env_val (HR_JIRA_SERVER_URL e), env_val (HR_JIRA_USERNAME e), env_val (HR_JIRA_API_TOKEN e)).

(** [extractCredentialsWithHRFallback(req, isHRUser = false)] (second
    revision; no route calls it).  [isHRUser] is any JS value, an omitted
    argument being [undefined]; the result is the [{serverUrl, username,
    apiToken}] object as a triple, [serverUrl] being [null] when
    [normalizeServerUrl] gave [null]. *)
Definition extractCredentialsWithHRFallback (e : env) (req : request) (isHRUser : jval)
  : res (jval * jval * jval) :=
  let* extracted := extractCredentials req in
  let su := server_jval (serverUrl extracted) in
  if truthy isHRUser && creds_missing su (username extracted) (apiToken extracted) then
    let '(hs, hu, ht) := getHRCredentials e in
    Ok (js_or su hs, js_or (username extracted) hu, js_or (apiToken extracted) ht)
  else Ok (su, username extracted, apiToken extracted).

Definition missing_credentials : reply :=
  RJson 400 (JObj [("error", JStr "Missing credentials");
                   ("message", JStr "Provide serverUrl, username and apiToken")]).

Definition missing_hr_credentials : reply :=
  RJson 400 (JObj [("error", JStr "Missing HR credentials");
                   ("message", JStr ("HR JIRA credentials not configured. Please set HR_JIRA_SERVER_URL, "
                                     ++ "HR_JIRA_USERNAME, and HR_JIRA_API_TOKEN in environment variables."))]).

(** ["Basic " + base64] of the UTF-8 bytes of [user:token]. *)
Definition basic_auth (user token : string) : string :=
  "Basic " ++ base64 (user ++ ":" ++ token).

(** [`Basic ${Buffer.from(`${username}:${apiToken}`).toString("base64")}`]:
    the inner template converts [username], then [apiToken]. *)
Definition auth_header (username apiToken : jval) : res string :=
  let* u := to_string username in
  let* t := to_string apiToken in
  Ok (basic_auth u t).

Definition user_agent : string := "JIRA-Proxy-Server/1.0".

Definition get_headers (auth : string) : list (string * string) :=
  [("Authorization", auth); ("Accept", "application/json"); ("User-Agent", user_agent)].

Definition post_headers (auth : string) : list (string * string) :=
  [("Authorization", auth); ("Accept", "application/json");
   ("Content-Type", "application/json"); ("User-Agent", user_agent)].

Definition default_jql : string :=
  "assignee = currentUser() AND status != Done ORDER BY updated DESC".

Definition task_fields : list string :=
  ["summary"; "status"; "assignee"; "priority"; "project"; "issuetype";
   "timetracking"; "created"; "updated"; "description"; "worklog"].

Definition task_fields_csv : string :=
  "summary,status,assignee,priority,project,issuetype,timetracking,created,updated,description,worklog".

Definition projects_query : string :=
  "/rest/api/3/project/search?maxResults=100&expand=description,lead,url,projectKeys".

(** [response.ok] *)
Definition resp_ok (r : upstream_resp) : bool := (200 <=? r_status r)%Z && (r_status r <=? 299)%Z.

(** [await fetch(...)] *)
Definition await_fetch (fr : fetch_result) : res upstream_resp :=
  match fr with Resp r => Ok r | NetErr e => Throw (Raised e) end.

(** A handler's body: an answer, or one call and its continuation. *)
Inductive step : Type :=
| SReply (r : reply)
| SFetch (q : upstream_req) (k : fetch_result -> res reply).

Definition error500 (e : exn) (message : string) : reply :=
  RJson 500 (JObj [("error", JStr (exn_string e)); ("message", JStr message)]).

(** [try { body } catch (err) { res.status(500).json({error: String(err), message}) }] *)
Definition catch500 (message : string) (m : res step) : outcome :=
  match m with
  | Throw e => ODone (error500 e message)
  | Ok (SReply r) => ODone r
  | Ok (SFetch q k) =>
      OCall q (fun fr => match k fr with Throw e => error500 e message | Ok r => r end)
  end.

Fixpoint mapM {A B : Type} (f : A -> res B) (l : list A) : res (list B) :=
  match l with
  | [] => Ok []
  | x :: r => let* y := f x in let* ys := mapM f r in Ok (y :: ys)
  end.

(** ** The route handlers *)

Section Handlers.

(** [JSON.parse], as used by [response.json()] and by add-worklog's error
    path. *)
Variable json_parse : string -> parse_result.

(** [await response.json()] (node-fetch wraps a parse failure). *)
Definition resp_json (url : string) (r : upstream_resp) : res jval :=
  match json_parse (r_text r) with
  | Parsed v => Ok v
  | ParseError why =>
      Throw (Raised ("FetchError: invalid json response body at " ++ url ++ " reason: " ++ why))
  end.

(** The non-ok branch shared by get-tasks, get-projects and get-worklogs. *)
Definition error_status_reply (r : upstream_resp) : reply :=
  RJson (r_status r) (JObj [("error", JStr (r_text r)); ("status", JNum (r_status r))]).

(** POST /jira/test-connection *)
Definition test_connection (req : request) : outcome :=
  catch500 "Failed to connect to JIRA" (
    let* c := extractCredentials req in
    let su := server_jval (serverUrl c) in
    if creds_missing su (username c) (apiToken c) then Ok (SReply missing_credentials) else
    let jiraUrl := to_str su ++ "/rest/api/3/myself" in
    let* _ := mask (apiToken c) in
    let* auth := auth_header (username c) (apiToken c) in
    Ok (SFetch (mkUpstream jiraUrl "GET" (get_headers auth) UNoBody) (fun fr =>
      let* r := await_fetch fr in
      if negb (resp_ok r) then
        Ok (RJson (r_status r) (JObj [("error", JStr (r_text r)); ("status", JNum (r_status r));
                                      ("statusText", JStr (r_statusText r))]))
      else
        let* data := resp_json jiraUrl r in
        let* accountId := get_prop data "accountId" in
        let* displayName := get_prop data "displayName" in
        let* emailAddress := get_prop data "emailAddress" in
        let* active := get_prop data "active" in
        Ok (RJson 200 (JObj [("status", JStr "ok");
                             ("user", JObj [("accountId", accountId); ("displayName", displayName);
                                            ("emailAddress", emailAddress); ("active", active)]);
                             ("message", JStr "Connection successful")]))))).

(** The success branch of both get-tasks handlers. *)
Definition tasks_reply (url : string) (r : upstream_resp) (last : string) : res reply :=
  let* data := resp_json url r in
  let* issues := get_prop data "issues" in
  let* total := get_prop data "total" in
  let* maxResults := get_prop data "maxResults" in
  let* l := get_prop data last in
  Ok (RJson 200 (JObj [("issues", issues); ("total", total); ("maxResults", maxResults); (last, l)])).

(** POST /jira/get-tasks, first revision: a POST search with a JSON body. *)
Definition get_tasks_v1 (req : request) : outcome :=
  catch500 "Failed to fetch JIRA tasks" (
    let* c := extractCredentials req in
    let jql := js_or (opt_get (rq_body req) "jql") (JStr default_jql) in
    let su := server_jval (serverUrl c) in
    if creds_missing su (username c) (apiToken c) then Ok (SReply missing_credentials) else
    let jiraUrl := to_str su ++ "/rest/api/3/search/jql" in
    let* _ := mask (apiToken c) in
    let* auth := auth_header (username c) (apiToken c) in
    let payload := JObj [("jql", jql); ("maxResults", JNum 100);
                         ("fields", JArr (map JStr task_fields))] in
    Ok (SFetch (mkUpstream jiraUrl "POST" (post_headers auth) (UJson payload)) (fun fr =>
      let* r := await_fetch fr in
      if negb (resp_ok r) then Ok (error_status_reply r)
      else tasks_reply jiraUrl r "nextPageToken"))).

(** The search URL of the second revision,
    [`${jiraUrl}?${queryParams.toString()}`], for the JQL string the
    [URLSearchParams] constructor has converted. *)
Definition search_url (base : string) (jql : string) : string :=
  base ++ "?" ++ search_params [("jql", jql); ("maxResults", "100"); ("fields", task_fields_csv)].

(** POST /jira/get-tasks, second revision: a GET search. *)
Definition get_tasks_v2 (req : request) : outcome :=
  catch500 "Failed to fetch JIRA tasks" (
    let* c := extractCredentials req in
    let jql := js_or (opt_get (rq_body req) "jql") (JStr default_jql) in
    let su := server_jval (serverUrl c) in
    if creds_missing su (username c) (apiToken c) then Ok (SReply missing_credentials) else
    let jiraUrl := to_str su ++ "/rest/api/3/search/jql" in
    let* _ := mask (apiToken c) in
    let* auth := auth_header (username c) (apiToken c) in
    let* jqlParam := to_string jql in
    let url := search_url jiraUrl jqlParam in
    Ok (SFetch (mkUpstream url "GET" (get_headers auth) UNoBody) (fun fr =>
      let* r := await_fetch fr in
      if negb (resp_ok r) then Ok (error_status_reply r)
      else tasks_reply url r "nextPageToken"))).

(** [(p) => ({ id: p.id, key: p.key, name: p.name, projectTypeKey:
    p.projectTypeKey, simplified: p.simplified })] *)
Definition project (p : jval) : res jval :=
  let* id := get_prop p "id" in
  let* key := get_prop p "key" in
  let* name := get_prop p "name" in
  let* projectTypeKey := get_prop p "projectTypeKey" in
  let* simplified := get_prop p "simplified" in
  Ok (JObj [("id", id); ("key", key); ("name", name);
            ("projectTypeKey", projectTypeKey); ("simplified", simplified)]).

(** The success branch of both get-projects handlers. *)
Definition projects_reply (url : string) (r : upstream_resp) : res reply :=
  let* data := resp_json url r in
  let* values := get_prop data "values" in
  match js_or values (JArr []) with
  | JArr ps =>
      let* projects := mapM project ps in
      Ok (RJson 200 (JObj [("projects", JArr projects)]))
  | _ => Throw (TypeError "(data.values || []).map is not a function")
  end.

(** POST /jira/get-projects *)
Definition get_projects (req : request) : outcome :=
  catch500 "Failed to fetch JIRA projects" (
    let* c := extractCredentials req in
    let su := server_jval (serverUrl c) in
    if creds_missing su (username c) (apiToken c) then Ok (SReply missing_credentials) else
    let jiraUrl := to_str su ++ projects_query in
    let* _ := mask (apiToken c) in
    let* auth := auth_header (username c) (apiToken c) in
    Ok (SFetch (mkUpstream jiraUrl "GET" (get_headers auth) UNoBody) (fun fr =>
      let* r := await_fetch fr in
      if negb (resp_ok r) then Ok (error_status_reply r)
      else projects_reply jiraUrl r))).

(** [const { ... } = req.body]: destructuring undefined or null throws. *)
Definition destructure_body (b : jval) : res unit :=
  match b with
  | JUndef => Throw (TypeError "Cannot destructure property 'serverUrl' of 'req.body' as it is undefined.")
  | JNull => Throw (TypeError "Cannot destructure property 'serverUrl' of 'req.body' as it is null.")
  | _ => Ok tt
  end.

Definition missing_worklog_fields : reply :=
  RJson 400 (JObj [("error", JStr "Missing required fields");
                   ("message", JStr "Provide issueKey and timeSpent")]).

Definition missing_issue_key : reply :=
  RJson 400 (JObj [("error", JStr "Missing required fields"); ("message", JStr "Provide issueKey")]).

Definition invalid_time_format : reply :=
  RJson 400 (JObj [("error", JStr "Invalid time format");
                   ("message", JStr "Time format should be like: 2h 30m, 1d, 45m (w=week, d=day, h=hour, m=minute)")]).

(** The Atlassian Document Format envelope of a worklog comment. *)
Definition comment_doc (text : string) : jval :=
  JObj [("type", JStr "doc"); ("version", JNum 1);
        ("content", JArr [JObj [("type", JStr "paragraph");
                                ("content", JArr [JObj [("type", JStr "text"); ("text", JStr text)]])]])].

(** [worklogPayload], with its comment added when [comment && comment.trim()]. *)
Definition worklogPayload (timeSpent comment : jval) : res jval :=
  if truthy comment then
    let* t := js_trim "comment" comment in
    if truthy (JStr t) then Ok (JObj [("timeSpent", timeSpent); ("comment", comment_doc t)])
    else Ok (JObj [("timeSpent", timeSpent)])
  else Ok (JObj [("timeSpent", timeSpent)]).

(** [`${serverUrl}/rest/api/3/issue/${issueKey}/worklog`], with the raw
    body values. *)
Definition worklog_url (su issueKey : jval) : res string :=
  let* s := to_string su in
  let* k := to_string issueKey in
  Ok (s ++ "/rest/api/3/issue/" ++ k ++ "/worklog").

(** POST /jira/add-worklog *)
Definition add_worklog (req : request) : outcome :=
  catch500 "Failed to add worklog to JIRA" (
    let b := rq_body req in
    let* _ := destructure_body b in
    let su := opt_get b "serverUrl" in
    let u := opt_get b "username" in
    let t := opt_get b "apiToken" in
    let issueKey := opt_get b "issueKey" in
    let timeSpent := opt_get b "timeSpent" in
    let comment := opt_get b "comment" in
    if creds_missing su u t then Ok (SReply missing_credentials) else
    if negb (truthy issueKey) || negb (truthy timeSpent) then Ok (SReply missing_worklog_fields) else
    let* ts := js_trim "timeSpent" timeSpent in
    if negb (re_test_anchored timeSpentRegex ts) then Ok (SReply invalid_time_format) else
    let* jiraUrl := worklog_url su issueKey in
    let* _ := mask t in
    let* auth := auth_header u t in
    let* payload := worklogPayload timeSpent comment in
    Ok (SFetch (mkUpstream jiraUrl "POST" (post_headers auth) (UJson payload)) (fun fr =>
      let* r := await_fetch fr in
      if negb (resp_ok r) then
        let text := r_text r in
        let errorData :=
          match json_parse text with Parsed v => v | ParseError _ => JObj [("error", JStr text)] end in
        let* e1 := get_prop errorData "error" in
        let* e12 := if truthy e1 then Ok e1 else get_prop errorData "errorMessages" in
        Ok (RJson (r_status r) (JObj [("error", js_or e12 (JStr text)); ("status", JNum (r_status r));
                                      ("details", errorData)]))
      else
        let* data := resp_json jiraUrl r in
        Ok (RJson 200 (JObj [("status", JStr "ok"); ("message", JStr "Worklog added successfully");
                             ("worklog", data)]))))).

(** POST /jira/get-worklogs *)
Definition get_worklogs (req : request) : outcome :=
  catch500 "Failed to get worklogs from JIRA" (
    let b := rq_body req in
    let* _ := destructure_body b in
    let su := opt_get b "serverUrl" in
    let u := opt_get b "username" in
    let t := opt_get b "apiToken" in
    let issueKey := opt_get b "issueKey" in
    if creds_missing su u t then Ok (SReply missing_credentials) else
    if negb (truthy issueKey) then Ok (SReply missing_issue_key) else
    let* jiraUrl := worklog_url su issueKey in
    let* _ := mask t in
    let* auth := auth_header u t in
    Ok (SFetch (mkUpstream jiraUrl "GET" (get_headers auth) UNoBody) (fun fr =>
      let* r := await_fetch fr in
      if negb (resp_ok r) then Ok (error_status_reply r)
      else
        let* data := resp_json jiraUrl r in
        let* worklogs := get_prop data "worklogs" in
        let* total := get_prop data "total" in
        Ok (RJson 200 (JObj [("status", JStr "ok"); ("message", JStr "Worklogs retrieved successfully");
                             ("worklogs", js_or worklogs (JArr [])); ("total", js_or total (JNum 0))]))))).

Definition is_get_or_head (m : string) : bool := String.eqb m "GET" || String.eqb m "HEAD".

(** The body the passthrough forwards. *)
Definition forward_body (req : request) : ubody :=
  if is_get_or_head (rq_method req) then UNoBody else UJson (js_or (rq_body req) (JObj [])).

(** The passthrough's target: [serverUrl] followed by
    [req.originalUrl.replace(/^\/jira/, '')]. *)
Definition target_url (serverUrl : string) (req : request) : string :=
  serverUrl ++ strip_prefix "/jira" (rq_url req).

(** How the passthrough answers from an upstream response. *)
Definition mirror (url : string) (r : upstream_resp) : res reply :=
  let contentType := match r_ctype r with Some c => c | None => EmptyString end in
  if includes contentType "application/json" then
    let* data := resp_json url r in Ok (RJson (r_status r) data)
  else Ok (RText (r_status r) (r_text r)).

(** The generic passthrough, [app.all(/^\/jira\/.*/)] in the first
    revision and [app.all(/^\/jira\/rest\/api\/.*/)] in the second (same
    body). *)
Definition generic_proxy (req : request) : outcome :=
  catch500 "Failed to proxy request to JIRA" (
    let* c := extractCredentials req in
    let su := server_jval (serverUrl c) in
    if creds_missing su (username c) (apiToken c) then Ok (SReply missing_credentials) else
    let targetUrl := target_url (to_str su) req in
    let* _ := mask (apiToken c) in
    let* auth := auth_header (username c) (apiToken c) in
    let forwardHeaders :=
      [("Authorization", auth);
       ("Accept", to_str (js_or (header req "accept") (JStr "application/json")));
       ("Content-Type", to_str (js_or (header req "content-type") (JStr "application/json")));
       ("User-Agent", user_agent)] in
    Ok (SFetch (mkUpstream targetUrl (rq_method req) forwardHeaders (forward_body req)) (fun fr =>
      let* r := await_fetch fr in
      mirror targetUrl r))).

(** POST /jira/hr/get-tasks (second revision): credentials from the
    environment only. *)
Definition hr_get_tasks (e : env) (req : request) : outcome :=
  catch500 "Failed to fetch JIRA tasks for HR" (
    let '(su, u, t) := getHRCredentials e in
    let jql := js_or (opt_get (rq_body req) "jql") (JStr default_jql) in
    if creds_missing su u t then Ok (SReply missing_hr_credentials) else
    let jiraUrl := to_str su ++ "/rest/api/3/search/jql" in
    let* _ := mask t in
    let* auth := auth_header u t in
    let* jqlParam := to_string jql in
    let url := search_url jiraUrl jqlParam in
    Ok (SFetch (mkUpstream url "GET" (get_headers auth) UNoBody) (fun fr =>
      let* r := await_fetch fr in
      if negb (resp_ok r) then Ok (error_status_reply r)
      else tasks_reply url r "startAt"))).

(** POST /jira/hr/get-projects (second revision). *)
Definition hr_get_projects (e : env) (req : request) : outcome :=
  catch500 "Failed to fetch JIRA projects for HR" (
    let '(su, u, t) := getHRCredentials e in
    if creds_missing su u t then Ok (SReply missing_hr_credentials) else
    let jiraUrl := to_str su ++ projects_query in
    let* _ := mask t in
    let* auth := auth_header u t in
    Ok (SFetch (mkUpstream jiraUrl "GET" (get_headers auth) UNoBody) (fun fr =>
      let* r := await_fetch fr in
      if negb (resp_ok r) then Ok (error_status_reply r)
      else projects_reply jiraUrl r))).

End Handlers.

(** GET /health *)
Definition health (e : env) : outcome :=
  ODone (RJson 200 (JObj [("status", JStr "ok"); ("message", JStr "JIRA proxy server is running");
                          ("timestamp", JStr (now_iso e))])).

(** ** Routing

    Express tries the routes in registration order and the first match
    answers (no handler calls [next()]).  A string route matches [req.path]
    ignoring case and one trailing slash; a regex route [/^p.*/] matches a
    path that starts with [p]; a route registered with [app.get] also
    answers HEAD. *)

Inductive handler_id : Type :=
| HHealth | HTestConnection | HGetTasksV1 | HGetTasksV2 | HGetProjects
| HAddWorklog | HGetWorklogs | HHrGetTasks | HHrGetProjects | HGeneric.

Inductive path_pat : Type :=
| PExact (p : string)
| PRegexPrefix (p : string).

Record route : Type := mkRoute {
  rt_method : option string;   (** [None] for [app.all] *)
  rt_path : path_pat;
  rt_handler : handler_id
}.

Definition lower_str (s : string) : string :=
  string_of_list_ascii (map lower (list_ascii_of_string s)).

Definition path_matches (pp : path_pat) (path : string) : bool :=
  match pp with
  | PExact p => String.eqb (lower_str path) p || String.eqb (lower_str path) (p ++ "/")
  | PRegexPrefix p => starts_with p path
  end.

Definition route_matches (rt : route) (req : request) : bool :=
  match rt_method rt with
  | Some m => String.eqb m (rq_method req) || (String.eqb m "GET" && String.eqb (rq_method req) "HEAD")
  | None => true
  end && path_matches (rt_path rt) (rq_path req).

Definition dispatch (routes : list route) (req : request) : option handler_id :=
  match find (fun rt => route_matches rt req) routes with
  | Some rt => Some (rt_handler rt)
  | None => None
  end.

Definition routes_v1 : list route :=
  [mkRoute (Some "GET") (PExact "/health") HHealth;
   mkRoute (Some "POST") (PExact "/jira/test-connection") HTestConnection;
   mkRoute (Some "POST") (PExact "/jira/get-tasks") HGetTasksV1;
   mkRoute (Some "POST") (PExact "/jira/get-projects") HGetProjects;
   mkRoute (Some "POST") (PExact "/jira/add-worklog") HAddWorklog;
   mkRoute (Some "POST") (PExact "/jira/get-worklogs") HGetWorklogs;
   mkRoute None (PRegexPrefix "/jira/") HGeneric].

Definition routes_v2 : list route :=
  [mkRoute (Some "GET") (PExact "/health") HHealth;
   mkRoute (Some "POST") (PExact "/jira/test-connection") HTestConnection;
   mkRoute (Some "POST") (PExact "/jira/hr/get-tasks") HHrGetTasks;
   mkRoute (Some "POST") (PExact "/jira/get-tasks") HGetTasksV2;
   mkRoute (Some "POST") (PExact "/jira/hr/get-projects") HHrGetProjects;
   mkRoute (Some "POST") (PExact "/jira/get-projects") HGetProjects;
   mkRoute (Some "POST") (PExact "/jira/add-worklog") HAddWorklog;
   mkRoute (Some "POST") (PExact "/jira/get-worklogs") HGetWorklogs;
   mkRoute None (PRegexPrefix "/jira/rest/api/") HGeneric].

Definition handle (json_parse : string -> parse_result) (e : env) (h : handler_id) (req : request) : outcome :=
  match h with
  | HHealth => health e
  | HTestConnection => test_connection json_parse req
  | HGetTasksV1 => get_tasks_v1 json_parse req
  | HGetTasksV2 => get_tasks_v2 json_parse req
  | HGetProjects => get_projects json_parse req
  | HAddWorklog => add_worklog json_parse req
  | HGetWorklogs => get_worklogs json_parse req
  | HHrGetTasks => hr_get_tasks json_parse e req
  | HHrGetProjects => hr_get_projects json_parse e req
  | HGeneric => generic_proxy json_parse req
  end.

(** The app.  The [cors] middleware, registered first, answers every
    OPTIONS request itself (a preflight: status 204, empty body) before any
    route; a request no route matches gets Express's 404 page, modelled by
    the message it shows ([Cannot <method> <path>]; the page wraps it in
    HTML). *)
Definition serve (json_parse : string -> parse_result) (e : env) (routes : list route) (req : request) : outcome :=
  if String.eqb (rq_method req) "OPTIONS" then ODone (RText 204 EmptyString)
  else
    match dispatch routes req with
    | Some h => handle json_parse e h req
    | None => ODone (RText 404 ("Cannot " ++ rq_method req ++ " " ++ rq_path req))
    end.

(** Handlers that take their credentials from the request. *)
Definition request_credentialed (h : handler_id) : bool :=
  match h with
  | HHealth | HHrGetTasks | HHrGetProjects => false
  | _ => true
  end.

(** The credentials a handler checks, as JS values: [extractCredentials]
    for most handlers (which throws when converting the server URL does),
    [req.body] alone for the two worklog handlers. *)
Definition resolved_creds (h : handler_id) (req : request) : res (jval * jval * jval) :=
  match h with
  | HAddWorklog | HGetWorklogs =>
      Ok (opt_get (rq_body req) "serverUrl", opt_get (rq_body req) "username", opt_get (rq_body req) "apiToken")
  | _ =>
      let* c := extractCredentials req in Ok (server_jval (serverUrl c), username c, apiToken c)
  end.

(** * Properties *)

(** ** String lemmas *)

Lemma drop_trailing_last : forall p s c,
  last_char (drop_trailing p s) = Some c -> p c = false.
Proof.
  intros p s; induction s as [|a r IH]; intros c H; simpl in *.
  - discriminate.
  - destruct (drop_trailing p r) as [|b r'] eqn:E.
    + destruct (p a) eqn:Pa; simpl in H; [discriminate|].
      injection H as <-; exact Pa.
    + apply IH. simpl in H |- *. exact H.
Qed.

Lemma drop_trailing_id : forall p s,
  (forall c, last_char s = Some c -> p c = false) -> drop_trailing p s = s.
Proof.
  intros p s; induction s as [|a r IH]; intros H; simpl.
  - reflexivity.
  - destruct r as [|b r'].
    + simpl. rewrite (H a eq_refl). reflexivity.
    + rewrite IH.
      * reflexivity.
      * intros c Hc. apply H. exact Hc.
Qed.

Lemma is_ws_lower_h : forall c, Ascii.eqb "h"%char (lower c) = true -> is_ws c = false.
Proof.
  intros c; destruct c as [[] [] [] [] [] [] [] []]; vm_compute; congruence.
Qed.

Lemma has_scheme_head : forall u, has_scheme u = true ->
  exists c r, u = String c r /\ is_ws c = false.
Proof.
  intros u H. unfold has_scheme in H.
  destruct u as [|c r]; [discriminate|].
  exists c, r; split; [reflexivity|].
  apply is_ws_lower_h.
  apply orb_true_iff in H; destruct H as [H|H]; simpl in H;
    apply andb_true_iff in H; destruct H as [H _]; exact H.
Qed.

Lemma normalize_shape : forall raw u,
  normalizeServerUrl raw = Ok (Some u) -> exists x, u = strip_slashes x.
Proof.
  intros raw u H. unfold normalizeServerUrl, to_string in H.
  destruct (negb (truthy raw)); [discriminate|].
  destruct (str_throws raw); cbn [bind] in H; [discriminate|].
  destruct (String.eqb _ EmptyString); [discriminate|].
  injection H as <-. eexists; reflexivity.
Qed.



Lemma to_string_ok : forall v s, to_string v = Ok s -> s = to_str v.
Proof.
  intros v s H. unfold to_string in H.
  destruct (str_throws v); [discriminate|]. injection H as <-. reflexivity.
Qed.

Lemma worklog_url_ok : forall su k url, worklog_url su k = Ok url ->
  url = to_str su ++ "/rest/api/3/issue/" ++ to_str k ++ "/worklog".
Proof.
  intros su k url H. unfold worklog_url in H.
  destruct (to_string su) as [ex|a] eqn:E1; cbn [bind] in H; [discriminate|].
  destruct (to_string k) as [ex|b] eqn:E2; cbn [bind] in H; [discriminate|].
  injection H as <-. rewrite (to_string_ok _ _ E1), (to_string_ok _ _ E2). reflexivity.
Qed.

(** ** C5: [normalizeServerUrl] *)

(** C5 (counterexample): normalizing a normalized URL can change it.
    ["foo.atlassian.net /"] normalizes to ["https://foo.atlassian.net "]
    (slash removal leaves the space), which normalizes to
    ["https://foo.atlassian.net"]; and ["/"] normalizes to ["https:"],
    which normalizes to ["https://https:"]. *)
Lemma C5_normalize_not_idempotent :
  normalizeServerUrl (JStr "foo.atlassian.net /") = Ok (Some "https://foo.atlassian.net ")
  /\ normalizeServerUrl (JStr "https://foo.atlassian.net ") = Ok (Some "https://foo.atlassian.net")
  /\ normalizeServerUrl (JStr "/") = Ok (Some "https:")
  /\ normalizeServerUrl (JStr "https:") = Ok (Some "https://https:").
Proof. repeat split; reflexivity. Qed.

(** C5 (amended): ["foo.atlassian.net"] and ["https://foo.atlassian.net/"]
    both normalize to ["https://foo.atlassian.net"], and normalizing again
    leaves a normalized URL unchanged whenever it still begins with
    [http://] or [https://] and does not end in whitespace. *)
Theorem C5_normalize_idempotent_on_clean_urls :
  normalizeServerUrl (JStr "foo.atlassian.net") = Ok (Some "https://foo.atlassian.net")
  /\ normalizeServerUrl (JStr "https://foo.atlassian.net/") = Ok (Some "https://foo.atlassian.net")
  /\ (forall raw u,
        normalizeServerUrl raw = Ok (Some u) ->
        has_scheme u = true ->
        (forall c, last_char u = Some c -> is_ws c = false) ->
        normalizeServerUrl (JStr u) = Ok (Some u)).
Proof.
  split; [reflexivity|]. split; [reflexivity|].
  intros raw u Hn Hs Hws.
  destruct (has_scheme_head u Hs) as (c & r & Hu & Hc).
  destruct (normalize_shape raw u Hn) as (x & Hx).
  unfold normalizeServerUrl, to_string. cbn [str_throws bind to_str].
  assert (Htrim : trim u = u).
  { unfold trim. rewrite Hu at 1. simpl. rewrite Hc. rewrite <- Hu.
    apply drop_trailing_id. exact Hws. }
  rewrite Htrim, Hs, Hu. simpl. do 2 f_equal.
  rewrite <- Hu. unfold strip_slashes. apply drop_trailing_id.
  intros c' Hc'. rewrite Hx in Hc'. exact (drop_trailing_last _ _ _ Hc').
Qed.

Lemma C5_normalize_idempotent_on_clean_urls_witness :
  normalizeServerUrl (JStr "https://foo.atlassian.net") = Ok (Some "https://foo.atlassian.net")
  /\ normalizeServerUrl (JStr "https://foo.atlassian.net") = Ok (Some "https://foo.atlassian.net").
Proof.
  split; [reflexivity|].
  apply (proj2 (proj2 C5_normalize_idempotent_on_clean_urls) (JStr "foo.atlassian.net")).
  - reflexivity.
  - reflexivity.
  - intros c H. vm_compute in H. injection H as <-. reflexivity.
Defined.

(** ** C6, C9: [extractCredentials] *)

Lemma js_or_truthy : forall a b, truthy a = true -> js_or a b = a.
Proof. intros a b H. unfold js_or. rewrite H. reflexivity. Qed.

Lemma js_or_falsy : forall a b, truthy a = false -> js_or a b = b.
Proof. intros a b H. unfold js_or. rewrite H. reflexivity. Qed.

(** The raw (pre-normalization) value [extractCredentials] selects for a
    field: [body || header || query]. *)
Definition pick (req : request) (field hdr : string) : jval :=
  js_or (js_or (opt_get (rq_body req) field) (header req hdr)) (query req field).

Lemma extractCredentials_pick : forall req,
  extractCredentials req =
  let* su := normalizeServerUrl (pick req "serverUrl" "x-jira-server") in
  Ok (mkCreds su (pick req "username" "x-jira-user") (pick req "apiToken" "x-jira-token")).
Proof. reflexivity. Qed.

Lemma extractCredentials_ok : forall req c,
  extractCredentials req = Ok c ->
  normalizeServerUrl (pick req "serverUrl" "x-jira-server") = Ok (serverUrl c)
  /\ username c = pick req "username" "x-jira-user" /\ apiToken c = pick req "apiToken" "x-jira-token".
Proof.
  intros req c H. rewrite extractCredentials_pick in H.
  destruct (normalizeServerUrl _) as [ex|su]; cbn [bind] in H; [discriminate|].
  injection H as <-. repeat split.
Qed.

Lemma pick_body : forall req f h,
  truthy (opt_get (rq_body req) f) = true -> pick req f h = opt_get (rq_body req) f.
Proof.
  intros req f h H. unfold pick. rewrite (js_or_truthy _ _ H). apply js_or_truthy. exact H.
Qed.

Lemma pick_header : forall req f h,
  truthy (opt_get (rq_body req) f) = false -> truthy (header req h) = true ->
  pick req f h = header req h.
Proof.
  intros req f h H1 H2. unfold pick. rewrite (js_or_falsy _ _ H1). apply js_or_truthy. exact H2.
Qed.

Lemma pick_fallback : forall req f h,
  truthy (opt_get (rq_body req) f) = false ->
  pick req f h = js_or (header req h) (query req f).
Proof. intros req f h H. unfold pick. rewrite (js_or_falsy _ _ H). reflexivity. Qed.

(** C6: per field, a truthy body value is the one used (the server URL
    after normalization), and when the body value is falsy a truthy header
    value is used rather than the query value. *)
Theorem C6_credential_precedence : forall req c,
  extractCredentials req = Ok c ->
  (truthy (opt_get (rq_body req) "serverUrl") = true ->
     normalizeServerUrl (opt_get (rq_body req) "serverUrl") = Ok (serverUrl c))
  /\ (truthy (opt_get (rq_body req) "username") = true ->
     username c = opt_get (rq_body req) "username")
  /\ (truthy (opt_get (rq_body req) "apiToken") = true ->
     apiToken c = opt_get (rq_body req) "apiToken")
  /\ (truthy (opt_get (rq_body req) "serverUrl") = false -> truthy (header req "x-jira-server") = true ->
     normalizeServerUrl (header req "x-jira-server") = Ok (serverUrl c))
  /\ (truthy (opt_get (rq_body req) "username") = false -> truthy (header req "x-jira-user") = true ->
     username c = header req "x-jira-user")
  /\ (truthy (opt_get (rq_body req) "apiToken") = false -> truthy (header req "x-jira-token") = true ->
     apiToken c = header req "x-jira-token").
Proof.
  intros req c H. destruct (extractCredentials_ok req c H) as (Hs & Hu & Ht).
  rewrite Hu, Ht, <- Hs.
  repeat split; intros;
    first [ rewrite pick_header by assumption; reflexivity
          | rewrite pick_body by assumption; reflexivity ].
Qed.

(** A request carrying a different username in its body, header and query. *)
Definition req_three_users (body_user : string) : request :=
  mkRequest "POST" "/jira/get-projects" "/jira/get-projects?username=q"
    [("x-jira-user", "h")] [("username", JStr "q")]
    (JObj [("username", JStr body_user)]).

Lemma C6_credential_precedence_witness :
  (exists c, extractCredentials (req_three_users "b") = Ok c /\ username c = JStr "b")
  /\ (exists c, extractCredentials (req_three_users EmptyString) = Ok c /\ username c = JStr "h").
Proof.
  split; eexists; (split; [reflexivity|]).
  - apply (proj1 (proj2 (C6_credential_precedence (req_three_users "b") _ eq_refl))). reflexivity.
  - apply (proj1 (proj2 (proj2 (proj2 (proj2 (C6_credential_precedence (req_three_users EmptyString) _ eq_refl))))));
      reflexivity.
Defined.

(** C9: a credential field present in the body as the empty string is
    treated as absent: the header value, else the query value, is used. *)
Theorem C9_empty_body_field_falls_back : forall req c,
  extractCredentials req = Ok c ->
  (opt_get (rq_body req) "serverUrl" = JStr EmptyString ->
     normalizeServerUrl (js_or (header req "x-jira-server") (query req "serverUrl")) = Ok (serverUrl c))
  /\ (opt_get (rq_body req) "username" = JStr EmptyString ->
     username c = js_or (header req "x-jira-user") (query req "username"))
  /\ (opt_get (rq_body req) "apiToken" = JStr EmptyString ->
     apiToken c = js_or (header req "x-jira-token") (query req "apiToken")).
Proof.
  intros req c Hc. destruct (extractCredentials_ok req c Hc) as (Hs & Hu & Ht).
  rewrite Hu, Ht, <- Hs.
  repeat split; intros H; rewrite pick_fallback by (rewrite H; reflexivity); reflexivity.
Qed.

Lemma C9_empty_body_field_falls_back_witness :
  exists c, extractCredentials (req_three_users EmptyString) = Ok c
            /\ username c = js_or (JStr "h") (JStr "q").
Proof.
  eexists; split; [reflexivity|].
  apply (proj1 (proj2 (C9_empty_body_field_falls_back (req_three_users EmptyString) _ eq_refl))).
  reflexivity.
Defined.

(** ** C1: missing credentials *)

Lemma destructure_body_ok : forall b, b <> JUndef -> b <> JNull -> destructure_body b = Ok tt.
Proof. intros [] H1 H2; try reflexivity; congruence. Qed.

(** A request without credentials anywhere. *)
Definition bare_request (method path : string) (body : jval) : request :=
  mkRequest method path path [] [] body.

Definition hr_env : env :=
  mkEnv (Some "https://hr.atlassian.net") (Some "hr@example.com") (Some "hr-token") "2026-01-01T00:00:00.000Z".

Definition network_down : upstream_req -> fetch_result := fun _ => NetErr "FetchError: network down".



Definition empty_env : env := mkEnv None None None "2026-01-01T00:00:00.000Z".



(** ** C2: the time-spent validator *)

(** An add-worklog request with every credential in its body. *)
Definition worklog_request (timeSpent comment : jval) : request :=
  mkRequest "POST" "/jira/add-worklog" "/jira/add-worklog" [] []
    (JObj [("serverUrl", JStr "https://foo.atlassian.net"); ("username", JStr "me@example.com");
           ("apiToken", JStr "secret-api-token"); ("issueKey", JStr "KEY-1");
           ("timeSpent", timeSpent); ("comment", comment)]).

(** C2 (counterexample): the pattern does not order the units; ["30m 2h"]
    is accepted and the worklog is sent upstream. *)
Lemma C2_out_of_order_accepted :
  timeSpent_valid "30m 2h" = true
  /\ fst (run network_down (add_worklog json_parse_subset (worklog_request (JStr "30m 2h") JUndef))) <> [].
Proof. split; [reflexivity | vm_compute; discriminate]. Qed.

(** C2 (amended): the validator accepts ["2h 30m"], ["1d"], ["45m"] and,
    with no unit order, ["30m 2h"]; it accepts every string that is blank
    after trimming (whitespace only); it rejects ["2x"] and ["abc"]; and an
    add-worklog request whose [timeSpent] is a string failing it is
    answered with a 400 and no upstream call. *)
Theorem C2_time_spent_validation :
  timeSpent_valid "2h 30m" = true /\ timeSpent_valid "1d" = true /\ timeSpent_valid "45m" = true
  /\ timeSpent_valid "30m 2h" = true
  /\ (forall s, trim s = EmptyString -> timeSpent_valid s = true)
  /\ timeSpent_valid "2x" = false /\ timeSpent_valid "abc" = false
  /\ (forall json_parse req s upstream,
        opt_get (rq_body req) "timeSpent" = JStr s ->
        timeSpent_valid s = false ->
        exists v, run upstream (add_worklog json_parse req) = ([], RJson 400 v)).
Proof.
  split; [reflexivity|]. split; [reflexivity|]. split; [reflexivity|]. split; [reflexivity|].
  split; [intros s Hs; unfold timeSpent_valid; rewrite Hs; reflexivity|].
  split; [reflexivity|]. split; [reflexivity|].
  intros json_parse req s upstream H Hv.
  unfold add_worklog.
  destruct (rq_body req) as [| | | | | | fs]; simpl in H; try discriminate H.
  cbv beta iota zeta delta [catch500 bind destructure_body opt_get].
  rewrite H.
  destruct (creds_missing _ _ _); [eexists; reflexivity|].
  destruct (negb (truthy (obj_get fs "issueKey")) || negb (truthy (JStr s))); [eexists; reflexivity|].
  unfold timeSpent_valid in Hv. simpl js_trim. cbv beta iota. rewrite Hv.
  eexists; reflexivity.
Qed.

Lemma C2_time_spent_validation_witness :
  exists v, run network_down (add_worklog json_parse_subset (worklog_request (JStr "2x") JUndef))
            = ([], RJson 400 v).
Proof.
  apply (proj2 (proj2 (proj2 (proj2 (proj2 (proj2 (proj2 C2_time_spent_validation))))))
           json_parse_subset (worklog_request (JStr "2x") JUndef) "2x" network_down);
    reflexivity.
Defined.

(** ** C3: credential transport on the worklog routes *)

Definition header_creds : list (string * string) :=
  [("x-jira-server", "foo.atlassian.net"); ("x-jira-user", "me@example.com");
   ("x-jira-token", "secret-api-token")].

(** A request carrying its credentials in headers only. *)
Definition header_creds_request (path : string) (body : jval) : request :=
  mkRequest "POST" path path header_creds [] body.

Definition worklog_fields : jval := JObj [("issueKey", JStr "KEY-1"); ("timeSpent", JStr "1h")].

(** C3: the two worklog handlers read the credentials from [req.body]
    only.  With the credentials in the [x-jira-*] headers, add-worklog and
    get-worklogs answer 400 "Missing credentials" in both revisions, while
    [extractCredentials] finds all three and get-projects, given the same
    headers, calls upstream; and a body [serverUrl] reaches the worklog URL
    without normalization. *)
Theorem C3_worklog_routes_read_body_only :
  let req := header_creds_request "/jira/add-worklog" worklog_fields in
  match extractCredentials req with
  | Ok c => creds_missing (server_jval (serverUrl c)) (username c) (apiToken c) = false
  | Throw _ => False
  end
  /\ run network_down (serve json_parse_subset empty_env routes_v1 req) = ([], missing_credentials)
  /\ run network_down (serve json_parse_subset empty_env routes_v2 req) = ([], missing_credentials)
  /\ run network_down (serve json_parse_subset empty_env routes_v2
                         (header_creds_request "/jira/get-worklogs" worklog_fields))
     = ([], missing_credentials)
  /\ map u_url (fst (run network_down (serve json_parse_subset empty_env routes_v2
                         (header_creds_request "/jira/get-projects" (JObj [])))))
     = ["https://foo.atlassian.net" ++ projects_query]
  /\ map u_url (fst (run network_down (add_worklog json_parse_subset
         (mkRequest "POST" "/jira/add-worklog" "/jira/add-worklog" [] []
            (JObj [("serverUrl", JStr "foo.atlassian.net/"); ("username", JStr "me@example.com");
                   ("apiToken", JStr "secret-api-token"); ("issueKey", JStr "KEY-1");
                   ("timeSpent", JStr "1h")])))))
     = ["foo.atlassian.net//rest/api/3/issue/KEY-1/worklog"].
Proof. vm_compute. repeat split. Qed.

(** ** C4, C10: the generic passthrough *)

(** The headers the passthrough forwards, for the [Authorization] value
    [auth]. *)
Definition proxy_headers (req : request) (auth : string) : list (string * string) :=
  [("Authorization", auth);
   ("Accept", to_str (js_or (header req "accept") (JStr "application/json")));
   ("Content-Type", to_str (js_or (header req "content-type") (JStr "application/json")));
   ("User-Agent", user_agent)].

(** The one upstream call the passthrough makes for [req]. *)
Definition proxy_request (req : request) (s auth : string) : upstream_req :=
  mkUpstream (target_url s req) (rq_method req) (proxy_headers req auth) (forward_body req).

(** The passthrough's reply to an upstream response [r]. *)
Definition proxy_reply (json_parse : string -> parse_result) (url : string) (r : upstream_resp) : reply :=
  match mirror json_parse url r with
  | Ok rep => rep
  | Throw e => error500 e "Failed to proxy request to JIRA"
  end.

Lemma generic_proxy_call : forall json_parse req c s t a,
  extractCredentials req = Ok c ->
  serverUrl c = Some s ->
  creds_missing (JStr s) (username c) (apiToken c) = false ->
  mask (apiToken c) = Ok t ->
  auth_header (username c) (apiToken c) = Ok a ->
  forall upstream r, upstream (proxy_request req s a) = Resp r ->
  run upstream (generic_proxy json_parse req)
  = ([proxy_request req s a], proxy_reply json_parse (target_url s req) r).
Proof.
  intros json_parse req c s t a Hc Hs Hcm Hm Ha upstream r Hr.
  unfold generic_proxy. rewrite Hc. cbn [bind]. cbv zeta. rewrite Hs.
  change (server_jval (Some s)) with (JStr s). rewrite Hcm.
  change (to_str (JStr s)) with s. rewrite Hm. cbn [bind]. rewrite Ha. cbn [bind].
  cbv beta iota delta [catch500 run].
  unfold proxy_request, proxy_headers in Hr. rewrite Hr.
  unfold proxy_reply. cbv beta iota delta [bind await_fetch].
  reflexivity.
Qed.





Definition json_upstream (status : Z) (text : string) : upstream_req -> fetch_result :=
  fun _ => Resp (mkResp status "OK" (Some "application/json; charset=utf-8") text).

(** A request with valid credentials in its headers. *)
Definition header_creds_call (method path : string) : request :=
  mkRequest method path path header_creds [] (JObj []).


(** The [Authorization] value of the [header_creds] credentials. *)
Definition header_creds_auth : string := basic_auth "me@example.com" "secret-api-token".


Lemma serve_generic : forall json_parse e routes req,
  rq_method req <> "OPTIONS" ->
  dispatch routes req = Some HGeneric -> serve json_parse e routes req = generic_proxy json_parse req.
Proof.
  intros json_parse e routes req Ho H. unfold serve.
  rewrite (proj2 (String.eqb_neq _ _) Ho), H. reflexivity.
Qed.

Lemma serve_options : forall json_parse e routes req,
  rq_method req = "OPTIONS" -> serve json_parse e routes req = ODone (RText 204 EmptyString).
Proof. intros json_parse e routes req H. unfold serve. rewrite H. reflexivity. Qed.




(** C10: when the upstream declares a JSON content type but its body does
    not parse, the passthrough does not mirror the status: it answers 500
    with [{error, message}]. *)
Theorem C10_unparsable_json_gives_500 :
  forall json_parse e routes req c s t a upstream r why,
  rq_method req <> "OPTIONS" ->
  dispatch routes req = Some HGeneric ->
  extractCredentials req = Ok c ->
  serverUrl c = Some s ->
  creds_missing (JStr s) (username c) (apiToken c) = false ->
  mask (apiToken c) = Ok t ->
  auth_header (username c) (apiToken c) = Ok a ->
  upstream (proxy_request req s a) = Resp r ->
  includes (match r_ctype r with Some c => c | None => EmptyString end) "application/json" = true ->
  json_parse (r_text r) = ParseError why ->
  exists err, run upstream (serve json_parse e routes req)
              = ([proxy_request req s a],
                 RJson 500 (JObj [("error", JStr err); ("message", JStr "Failed to proxy request to JIRA")])).
Proof.
  intros json_parse e routes req c s t a upstream r why Ho Hd Hc Hs Hcm Hm Ha Hr Hct Hp.
  rewrite (serve_generic _ _ _ _ Ho Hd), (generic_proxy_call json_parse req c s t a Hc Hs Hcm Hm Ha upstream r Hr).
  unfold proxy_reply, mirror. rewrite Hct. unfold resp_json. rewrite Hp.
  eexists; reflexivity.
Qed.

Lemma C10_unparsable_json_gives_500_witness :
  exists err,
  run (json_upstream 200 EmptyString)
      (serve json_parse_subset empty_env routes_v2 (header_creds_call "HEAD" "/jira/rest/api/3/issue/KEY-1"))
  = ([proxy_request (header_creds_call "HEAD" "/jira/rest/api/3/issue/KEY-1") "https://foo.atlassian.net"
        header_creds_auth],
     RJson 500 (JObj [("error", JStr err); ("message", JStr "Failed to proxy request to JIRA")])).
Proof.
  exact (C10_unparsable_json_gives_500 json_parse_subset empty_env routes_v2
           (header_creds_call "HEAD" "/jira/rest/api/3/issue/KEY-1")
           (mkCreds (Some "https://foo.atlassian.net") (JStr "me@example.com") (JStr "secret-api-token"))
           "https://foo.atlassian.net" "secr...oken" header_creds_auth
           (json_upstream 200 EmptyString)
           (mkResp 200 "OK" (Some "application/json; charset=utf-8") EmptyString)
           "Unexpected end of JSON input"
           ltac:(discriminate) eq_refl eq_refl eq_refl eq_refl eq_refl eq_refl eq_refl eq_refl eq_refl).
Defined.

(** ** C7: the project projection *)

(** The five-field projection of an upstream project. *)
Definition proj5 (p : jval) : jval :=
  JObj [("id", opt_get p "id"); ("key", opt_get p "key"); ("name", opt_get p "name");
        ("projectTypeKey", opt_get p "projectTypeKey"); ("simplified", opt_get p "simplified")].

Lemma get_prop_ok : forall v k w, get_prop v k = Ok w -> w = opt_get v k.
Proof. intros [] k w H; simpl in H; try discriminate; injection H as <-; reflexivity. Qed.

Lemma project_ok : forall p q, project p = Ok q -> q = proj5 p.
Proof.
  intros p q H. unfold project in H.
  destruct p; simpl in H; try discriminate; injection H as <-; reflexivity.
Qed.

Lemma mapM_project : forall ps qs, mapM project ps = Ok qs -> qs = map proj5 ps.
Proof.
  induction ps as [|p ps IH]; intros qs H; simpl in H.
  - injection H as <-. reflexivity.
  - destruct (project p) as [e|q] eqn:Ep; simpl in H; [discriminate|].
    destruct (mapM project ps) as [e|qs'] eqn:Em; simpl in H; [discriminate|].
    injection H as <-. rewrite (project_ok _ _ Ep), (IH _ eq_refl). reflexivity.
Qed.

Definition example_project : jval :=
  JObj [("id", JStr "1"); ("key", JStr "AB"); ("name", JStr "Test");
        ("projectTypeKey", JStr "software"); ("simplified", JBool true); ("extraField", JStr "x")].

Definition example_upstream : jval := JObj [("values", JArr [example_project])].

Definition example_response : jval :=
  JObj [("projects", JArr [JObj [("id", JStr "1"); ("key", JStr "AB"); ("name", JStr "Test");
                                 ("projectTypeKey", JStr "software"); ("simplified", JBool true)]])].

(** C7: every 200 answer of get-projects lists the five-field projection
    of each element of the upstream [values] (all other fields dropped),
    and the spec's example upstream value yields exactly the spec's
    example response. *)
Theorem C7_projects_projection :
  (forall json_parse req upstream q body,
     run upstream (get_projects json_parse req) = ([q], RJson 200 body) ->
     exists r data ps,
       upstream q = Resp r /\ json_parse (r_text r) = Parsed data
       /\ js_or (opt_get data "values") (JArr []) = JArr ps
       /\ body = JObj [("projects", JArr (map proj5 ps))])
  /\ (forall json_parse url r,
       json_parse (r_text r) = Parsed example_upstream ->
       projects_reply json_parse url r = Ok (RJson 200 example_response)).
Proof.
  split.
  - intros json_parse req upstream q body H.
    unfold get_projects, catch500 in H. cbv zeta in H.
    destruct (extractCredentials req) as [e0|c]; cbv beta iota delta [bind] in H; [discriminate|].
    destruct (creds_missing _ _ _); [discriminate|].
    destruct (mask _) as [e0|m]; cbv beta iota delta [bind] in H; [discriminate|].
    destruct (auth_header _ _) as [e0|a]; cbv beta iota delta [bind] in H; [discriminate|].
    unfold run in H. injection H as Hq Hrep. subst q.
    destruct (upstream _) as [r|err] eqn:Eu; cbv beta iota delta [bind await_fetch] in Hrep;
      [|discriminate].
    destruct (resp_ok r) eqn:Eok; cbv beta iota delta [negb] in Hrep.
    + unfold projects_reply, resp_json in Hrep.
      destruct (json_parse (r_text r)) as [data|why] eqn:Ep; cbv beta iota delta [bind] in Hrep;
        [|discriminate].
      destruct (get_prop data "values") as [e1|values] eqn:Eg; [discriminate|].
      destruct (js_or values (JArr [])) as [| | | | |ps|] eqn:Ej; try discriminate.
      destruct (mapM project ps) as [e2|qs] eqn:Em; [discriminate|].
      injection Hrep as <-.
      exists r, data, ps. rewrite <- (get_prop_ok _ _ _ Eg).
      repeat split; try reflexivity; try assumption.
      rewrite (mapM_project _ _ Em). reflexivity.
    + unfold error_status_reply in Hrep. injection Hrep as Hs _.
      unfold resp_ok in Eok. rewrite Hs in Eok. discriminate.
  - intros json_parse url r H. unfold projects_reply, resp_json. rewrite H. reflexivity.
Qed.

Definition example_upstream_text : string :=
  "{" ++ String dq "values" ++ String dq ":[{"
  ++ String dq "id" ++ String dq ":" ++ String dq "1" ++ String dq ","
  ++ String dq "key" ++ String dq ":" ++ String dq "AB" ++ String dq ","
  ++ String dq "name" ++ String dq ":" ++ String dq "Test" ++ String dq ","
  ++ String dq "projectTypeKey" ++ String dq ":" ++ String dq "software" ++ String dq ","
  ++ String dq "simplified" ++ String dq ":true,"
  ++ String dq "extraField" ++ String dq ":" ++ String dq "x" ++ String dq "}]}".

Definition projects_call : upstream_req :=
  mkUpstream ("https://foo.atlassian.net" ++ projects_query) "GET"
    (get_headers (basic_auth "me@example.com" "secret-api-token")) UNoBody.

Definition example_resp : upstream_resp :=
  mkResp 200 "OK" (Some "application/json") example_upstream_text.

Lemma C7_projects_projection_witness :
  (exists r data ps,
     json_upstream 200 example_upstream_text projects_call = Resp r
     /\ json_parse_subset (r_text r) = Parsed data
     /\ js_or (opt_get data "values") (JArr []) = JArr ps
     /\ example_response = JObj [("projects", JArr (map proj5 ps))])
  /\ projects_reply json_parse_subset "u" example_resp = Ok (RJson 200 example_response).
Proof.
  split.
  - apply (proj1 C7_projects_projection json_parse_subset
             (header_creds_request "/jira/get-projects" (JObj []))
             (json_upstream 200 example_upstream_text)).
    vm_compute. reflexivity.
  - apply (proj2 C7_projects_projection). vm_compute. reflexivity.
Defined.

(** ** C8: the worklog comment envelope *)

(** Past its checks, add-worklog sends [worklogPayload] upstream. *)
Lemma add_worklog_reaches_payload : forall json_parse req fs ts url t a,
  rq_body req = JObj fs ->
  creds_missing (obj_get fs "serverUrl") (obj_get fs "username") (obj_get fs "apiToken") = false ->
  truthy (obj_get fs "issueKey") = true ->
  obj_get fs "timeSpent" = JStr ts -> truthy (JStr ts) = true -> timeSpent_valid ts = true ->
  worklog_url (obj_get fs "serverUrl") (obj_get fs "issueKey") = Ok url ->
  mask (obj_get fs "apiToken") = Ok t ->
  auth_header (obj_get fs "username") (obj_get fs "apiToken") = Ok a ->
  add_worklog json_parse req
  = catch500 "Failed to add worklog to JIRA" (
      let* payload := worklogPayload (JStr ts) (obj_get fs "comment") in
      Ok (SFetch (mkUpstream url "POST" (post_headers a) (UJson payload)) (fun fr =>
        let* r := await_fetch fr in
        if negb (resp_ok r) then
          let text := r_text r in
          let errorData :=
            match json_parse text with Parsed v => v | ParseError _ => JObj [("error", JStr text)] end in
          let* e1 := get_prop errorData "error" in
          let* e12 := if truthy e1 then Ok e1 else get_prop errorData "errorMessages" in
          Ok (RJson (r_status r) (JObj [("error", js_or e12 (JStr text)); ("status", JNum (r_status r));
                                        ("details", errorData)]))
        else
          let* data := resp_json json_parse url r in
          Ok (RJson 200 (JObj [("status", JStr "ok"); ("message", JStr "Worklog added successfully");
                               ("worklog", data)]))))).
Proof.
  intros json_parse req fs ts url t a Hb Hc Hik Hts Htr Hv Hu Hm Ha.
  unfold add_worklog. rewrite Hb.
  cbv beta iota zeta delta [bind destructure_body opt_get].
  rewrite Hts, Hc, Hik, Htr. cbv beta iota delta [negb orb js_trim].
  unfold timeSpent_valid in Hv. rewrite Hv. cbv beta iota delta [negb].
  rewrite Hu. cbv beta iota. rewrite Hm. cbv beta iota. rewrite Ha. cbv beta iota.
  reflexivity.
Qed.

Lemma add_worklog_sends_payload : forall json_parse req fs ts url t a p,
  rq_body req = JObj fs ->
  creds_missing (obj_get fs "serverUrl") (obj_get fs "username") (obj_get fs "apiToken") = false ->
  truthy (obj_get fs "issueKey") = true ->
  obj_get fs "timeSpent" = JStr ts -> truthy (JStr ts) = true -> timeSpent_valid ts = true ->
  worklog_url (obj_get fs "serverUrl") (obj_get fs "issueKey") = Ok url ->
  mask (obj_get fs "apiToken") = Ok t ->
  auth_header (obj_get fs "username") (obj_get fs "apiToken") = Ok a ->
  worklogPayload (JStr ts) (obj_get fs "comment") = Ok p ->
  exists q k, add_worklog json_parse req = OCall q k /\ u_body q = UJson p.
Proof.
  intros json_parse req fs ts url t a p Hb Hc Hik Hts Htr Hv Hu Hm Ha Hp.
  rewrite (add_worklog_reaches_payload json_parse req fs ts url t a Hb Hc Hik Hts Htr Hv Hu Hm Ha).
  rewrite Hp. eexists; eexists; split; reflexivity.
Qed.

(** C8: when add-worklog gets past its checks (the worklog URL and the
    [Authorization] header built, which needs the server URL, issue key,
    username and token to convert to strings), the payload it sends holds
    [comment_doc (trim c)] (a document with one paragraph holding one text
    run) for a comment string [c] that is not blank after trimming, and no
    comment field for an absent or blank comment. *)
Theorem C8_worklog_comment_envelope : forall json_parse req fs ts url t a,
  rq_body req = JObj fs ->
  creds_missing (obj_get fs "serverUrl") (obj_get fs "username") (obj_get fs "apiToken") = false ->
  truthy (obj_get fs "issueKey") = true ->
  obj_get fs "timeSpent" = JStr ts -> ts <> EmptyString -> timeSpent_valid ts = true ->
  worklog_url (obj_get fs "serverUrl") (obj_get fs "issueKey") = Ok url ->
  mask (obj_get fs "apiToken") = Ok t ->
  auth_header (obj_get fs "username") (obj_get fs "apiToken") = Ok a ->
  (forall c, obj_get fs "comment" = JStr c -> trim c <> EmptyString ->
     exists q k, add_worklog json_parse req = OCall q k
                 /\ u_body q = UJson (JObj [("timeSpent", JStr ts); ("comment", comment_doc (trim c))]))
  /\ ((obj_get fs "comment" = JUndef \/ exists c, obj_get fs "comment" = JStr c /\ trim c = EmptyString) ->
     exists q k, add_worklog json_parse req = OCall q k /\ u_body q = UJson (JObj [("timeSpent", JStr ts)])).
Proof.
  intros json_parse req fs ts url t a Hb Hc Hik Hts Hne Hv Hu Hm Ha.
  assert (Htr : truthy (JStr ts) = true).
  { simpl. destruct (String.eqb_spec ts EmptyString); [contradiction | reflexivity]. }
  split.
  - intros c Hcm Hct. apply (add_worklog_sends_payload json_parse req fs ts url t a); try assumption.
    rewrite Hcm. unfold worklogPayload.
    assert (Hc1 : truthy (JStr c) = true).
    { simpl. destruct (String.eqb_spec c EmptyString) as [->|]; [contradiction Hct; reflexivity | reflexivity]. }
    assert (Hc2 : truthy (JStr (trim c)) = true).
    { simpl. destruct (String.eqb_spec (trim c) EmptyString); [contradiction | reflexivity]. }
    rewrite Hc1. simpl js_trim. cbv beta iota delta [bind]. rewrite Hc2. reflexivity.
  - intros Hcm. apply (add_worklog_sends_payload json_parse req fs ts url t a); try assumption.
    destruct Hcm as [Hcm | (c & Hcm & Hct)]; rewrite Hcm; unfold worklogPayload.
    + reflexivity.
    + destruct (truthy (JStr c)); [|reflexivity].
      simpl js_trim. cbv beta iota delta [bind]. rewrite Hct. reflexivity.
Qed.

Definition worklog_body (comment : jval) : list (string * jval) :=
  [("serverUrl", JStr "https://foo.atlassian.net"); ("username", JStr "me@example.com");
   ("apiToken", JStr "secret-api-token"); ("issueKey", JStr "KEY-1");
   ("timeSpent", JStr "2h 30m"); ("comment", comment)].

Lemma C8_worklog_comment_envelope_witness :
  exists q k, add_worklog json_parse_subset (worklog_request (JStr "2h 30m") (JStr "  fixed it "))
              = OCall q k
              /\ u_body q = UJson (JObj [("timeSpent", JStr "2h 30m"); ("comment", comment_doc "fixed it")]).
Proof.
  apply (proj1 (C8_worklog_comment_envelope json_parse_subset
                  (worklog_request (JStr "2h 30m") (JStr "  fixed it "))
                  (worklog_body (JStr "  fixed it ")) "2h 30m"
                  "https://foo.atlassian.net/rest/api/3/issue/KEY-1/worklog" "secr...oken"
                  (basic_auth "me@example.com" "secret-api-token")
                  eq_refl eq_refl eq_refl eq_refl ltac:(discriminate) eq_refl eq_refl eq_refl eq_refl)
           "  fixed it " eq_refl ltac:(discriminate)).
Defined.

(** * Further properties of the server code *)

(** ** [mask] *)

Lemma string_app_length : forall a b,
  String.length (a ++ b) = (String.length a + String.length b)%nat.
Proof. induction a as [|c a IH]; intros b; simpl; [reflexivity|]. rewrite IH; reflexivity. Qed.

Lemma substring_length_exact : forall s n m,
  (n + m <= String.length s)%nat -> String.length (substring n m s) = m.
Proof.
  induction s as [|c s IH]; intros n m H; simpl in H.
  - assert (n = 0%nat) by lia; assert (m = 0%nat) by lia; subst; reflexivity.
  - destruct n as [|n].
    + destruct m as [|m]; simpl; [reflexivity|]. f_equal. apply IH. lia.
    + simpl. apply IH. lia.
Qed.

(** [mask] never throws on a string token, and what it logs is at most 11
    characters long: a token of more than 8 characters shows as its first
    four characters, ["..."] and its last four characters. *)
Theorem mask_string_token : forall s,
  exists m, mask (JStr s) = Ok m /\ (String.length m <= 11)%nat
  /\ ((8 < String.length s)%nat ->
      m = substring 0 4 s ++ "..." ++ substring (String.length s - 4) 4 s
      /\ String.length m = 11%nat).
Proof.
  intros s. unfold mask. simpl truthy.
  destruct (String.eqb s EmptyString) eqn:E; simpl negb; cbv iota.
  - apply String.eqb_eq in E; subst s. exists EmptyString; simpl; repeat split; lia.
  - destruct (String.length s <=? 8)%nat eqn:L.
    + apply Nat.leb_le in L. exists "****"; simpl; repeat split; lia.
    + apply Nat.leb_gt in L.
      eexists; split; [reflexivity|].
      assert (Hl : String.length (substring 0 4 s ++ "..." ++ substring (String.length s - 4) 4 s) = 11%nat).
      { rewrite !string_app_length, !substring_length_exact by lia. reflexivity. }
      rewrite Hl. repeat split; lia.
Qed.

Lemma mask_num_bool : forall v,
  truthy v = true ->
  (exists z, v = JNum z) \/ (exists b, v = JBool b) ->
  mask v = Throw (TypeError "s.slice is not a function").
Proof.
  intros v Ht [[z ->]|[b ->]]; unfold mask; rewrite Ht; reflexivity.
Qed.

(** The handlers that take their credentials from [extractCredentials]
    log [mask(apiToken)] after the credential check and before the call:
    when the token is a truthy number or boolean (possible in a JSON
    body), [mask] throws [TypeError: s.slice is not a function] ([s.length]
    is undefined there, so the length test fails and [slice] is called),
    the request is answered with 500 and nothing is sent upstream. *)
Theorem mask_throw_gives_500 : forall json_parse e h req c upstream,
  In h [HTestConnection; HGetTasksV1; HGetTasksV2; HGetProjects; HGeneric] ->
  extractCredentials req = Ok c ->
  creds_missing (server_jval (serverUrl c)) (username c) (apiToken c) = false ->
  (exists z, apiToken c = JNum z) \/ (exists b, apiToken c = JBool b) ->
  fst (run upstream (handle json_parse e h req)) = []
  /\ exists message,
       snd (run upstream (handle json_parse e h req))
       = error500 (TypeError "s.slice is not a function") message.
Proof.
  intros json_parse e h req c upstream Hh Hx Hc Ht.
  assert (Hm : mask (apiToken c) = Throw (TypeError "s.slice is not a function")).
  { apply mask_num_bool; [|exact Ht].
    unfold creds_missing in Hc. apply orb_false_iff in Hc as [_ Hc]. apply negb_false_iff in Hc.
    exact Hc. }
  simpl in Hh.
  destruct Hh as [<-|[<-|[<-|[<-|[<-|[]]]]]];
    cbv beta iota zeta delta [handle test_connection get_tasks_v1 get_tasks_v2 get_projects generic_proxy];
    rewrite Hx; cbn [bind]; rewrite Hc; rewrite Hm; cbv beta iota delta [bind catch500 run];
    (split; [reflexivity | eexists; reflexivity]).
Qed.

(** A JSON body carrying the token as a number. *)
Definition numeric_token_request (path : string) : request :=
  mkRequest "POST" path path [] []
    (JObj [("serverUrl", JStr "foo.atlassian.net"); ("username", JStr "me@example.com");
           ("apiToken", JNum 12345)]).

Lemma mask_throw_gives_500_witness :
  fst (run network_down (handle json_parse_subset empty_env HGetProjects (numeric_token_request "/jira/get-projects"))) = []
  /\ exists message,
       snd (run network_down (handle json_parse_subset empty_env HGetProjects (numeric_token_request "/jira/get-projects")))
       = error500 (TypeError "s.slice is not a function") message.
Proof.
  apply (mask_throw_gives_500 json_parse_subset empty_env HGetProjects
           (numeric_token_request "/jira/get-projects")
           (mkCreds (Some "https://foo.atlassian.net") (JStr "me@example.com") (JNum 12345)) network_down).
  - simpl. right; right; right; left. reflexivity.
  - reflexivity.
  - vm_compute. reflexivity.
  - left. exists 12345%Z. reflexivity.
Defined.

(** ** [normalizeServerUrl] *)

Lemma prefix_ci_app : forall p a b, prefix_ci p a = true -> prefix_ci p (a ++ b) = true.
Proof.
  induction p as [|d p IH]; intros a b H; [reflexivity|].
  destruct a as [|c a]; [discriminate|].
  simpl in H |- *. apply andb_true_iff in H as [H1 H2].
  rewrite H1, (IH _ _ H2). reflexivity.
Qed.

Lemma prefix_ci_app_l : forall p q s, prefix_ci (p ++ q) s = true -> prefix_ci p s = true.
Proof.
  induction p as [|d p IH]; intros q s H; [reflexivity|].
  destruct s as [|c s]; [discriminate|].
  simpl in H |- *. apply andb_true_iff in H as [H1 H2].
  rewrite H1, (IH _ _ H2). reflexivity.
Qed.

Lemma prefix_ci_split : forall p s, prefix_ci p s = true ->
  exists a b, s = a ++ b /\ prefix_ci p a = true /\ String.length a = String.length p.
Proof.
  induction p as [|d p IH]; intros s H.
  - exists EmptyString, s. repeat split.
  - destruct s as [|c s]; [discriminate|].
    simpl in H. apply andb_true_iff in H as [H1 H2].
    destruct (IH s H2) as (a & b & -> & Ha & Hl).
    exists (String c a), b. simpl. rewrite H1, Ha, Hl. repeat split.
Qed.

Lemma last_char_cons : forall c r, r <> EmptyString -> last_char (String c r) = last_char r.
Proof. intros c [|d r] H; [congruence | reflexivity]. Qed.

Lemma prefix_ci_last : forall p a c, prefix_ci p a = true ->
  String.length a = String.length p -> last_char a = Some c ->
  exists d, last_char p = Some d /\ Ascii.eqb d (lower c) = true.
Proof.
  induction p as [|d p IH]; intros a c H Hl Hc.
  - destruct a; [discriminate | simpl in Hl; discriminate].
  - destruct a as [|c' a]; [discriminate|].
    simpl in H, Hl. apply andb_true_iff in H as [H1 H2].
    destruct p as [|d' p].
    + destruct a; [|simpl in Hl; discriminate].
      simpl in Hc. injection Hc as <-. exists d. split; [reflexivity | exact H1].
    + destruct a as [|c'' a]; [simpl in Hl; discriminate|].
      rewrite last_char_cons in Hc by discriminate.
      rewrite last_char_cons by discriminate.
      apply (IH _ c H2); [lia | exact Hc].
Qed.

Lemma colon_not_slash : forall c, Ascii.eqb ":"%char (lower c) = true -> is_slash c = false.
Proof.
  intros c; destruct c as [[] [] [] [] [] [] [] []]; vm_compute; congruence.
Qed.

Lemma drop_trailing_app : forall p a b,
  (forall c, last_char a = Some c -> p c = false) ->
  drop_trailing p (a ++ b) = a ++ drop_trailing p b.
Proof.
  intros p a b; induction a as [|c a IH]; intros H; [reflexivity|].
  simpl. destruct a as [|d a].
  - rewrite (H c eq_refl). simpl. destruct (drop_trailing p b); reflexivity.
  - rewrite IH.
    + reflexivity.
    + intros c' Hc. apply H. rewrite last_char_cons by discriminate. exact Hc.
Qed.

(** Removing trailing slashes keeps a scheme prefix ["http:"] or ["https:"]. *)
Lemma strip_slashes_keeps_prefix : forall q s,
  (q = "http:" \/ q = "https:") -> prefix_ci q s = true -> prefix_ci q (strip_slashes s) = true.
Proof.
  intros q s Hq H.
  destruct (prefix_ci_split q s H) as (a & b & -> & Ha & Hl).
  unfold strip_slashes. rewrite drop_trailing_app.
  - apply prefix_ci_app, Ha.
  - intros c Hc. destruct (prefix_ci_last q a c Ha Hl Hc) as (d & Hd & Hdc).
    destruct Hq as [->| ->]; simpl in Hd; injection Hd as <-; apply colon_not_slash, Hdc.
Qed.

(** A server URL [normalizeServerUrl] returns starts with ["http:"] or
    ["https:"] (in any letter case) and never ends with a slash; the two
    slashes after the scheme can be lost when nothing follows them
    (["http://"] gives ["http:"]). *)
Theorem normalizeServerUrl_result_shape : forall raw u,
  normalizeServerUrl raw = Ok (Some u) ->
  (prefix_ci "http:" u || prefix_ci "https:" u) = true /\ last_char u <> Some "/"%char.
Proof.
  intros raw u H. unfold normalizeServerUrl, to_string in H.
  destruct (negb (truthy raw)); [discriminate|].
  destruct (str_throws raw); cbn [bind] in H; [discriminate|].
  destruct (String.eqb _ EmptyString); [discriminate|].
  injection H as <-.
  set (url := trim (to_str raw)).
  assert (Hs : has_scheme (if has_scheme url then url else "https://" ++ url) = true).
  { destruct (has_scheme url) eqn:E; [exact E | reflexivity]. }
  split.
  - unfold has_scheme in Hs. apply orb_true_iff in Hs as [Hs|Hs].
    + rewrite (strip_slashes_keeps_prefix "http:" _ (or_introl eq_refl)); [reflexivity|].
      apply (prefix_ci_app_l "http:" "//"), Hs.
    + rewrite (strip_slashes_keeps_prefix "https:" _ (or_intror eq_refl)); [apply orb_true_r|].
      apply (prefix_ci_app_l "https:" "//"), Hs.
  - intros Hc. apply drop_trailing_last in Hc. discriminate.
Qed.

Lemma normalizeServerUrl_result_shape_witness :
  (prefix_ci "http:" "HTTP://jira.example.com" || prefix_ci "https:" "HTTP://jira.example.com") = true
  /\ last_char "HTTP://jira.example.com" <> Some "/"%char.
Proof.
  apply (normalizeServerUrl_result_shape (JStr " HTTP://jira.example.com// ")).
  reflexivity.
Defined.

(** ** [extractCredentialsWithHRFallback] *)

(** For an HR user each field is the request's value when that is truthy
    and the environment's otherwise, whether or not the request's set is
    complete (the completeness test changes nothing); the environment's
    server URL is used as it is, without [normalizeServerUrl].  For anyone
    else the result is [extractCredentials(req)]. *)
Theorem extractCredentialsWithHRFallback_fieldwise : forall e req isHRUser,
  let '(hs, hu, ht) := getHRCredentials e in
  extractCredentialsWithHRFallback e req isHRUser
  = let* c := extractCredentials req in
    Ok (if truthy isHRUser
        then (js_or (server_jval (serverUrl c)) hs, js_or (username c) hu, js_or (apiToken c) ht)
        else (server_jval (serverUrl c), username c, apiToken c)).
Proof.
  intros e req isHRUser.
  destruct (getHRCredentials e) as [[hs hu] ht] eqn:He.
  unfold extractCredentialsWithHRFallback.
  destruct (extractCredentials req) as [ex|c]; cbn [bind]; [reflexivity|]. rewrite He.
  destruct (truthy isHRUser); simpl andb; [|reflexivity].
  destruct (creds_missing _ _ _) eqn:Hm; [reflexivity|].
  unfold creds_missing in Hm. apply orb_false_iff in Hm as [Hm Ht].
  apply orb_false_iff in Hm as [Hs Hu]. apply negb_false_iff in Hs, Hu, Ht.
  rewrite !js_or_truthy by assumption. reflexivity.
Qed.

(** ** Routing *)

Lemma route_matches_post : forall p h req,
  rq_method req <> "POST" -> route_matches (mkRoute (Some "POST") (PExact p) h) req = false.
Proof.
  intros p h req H. unfold route_matches. cbn [rt_method rt_path].
  rewrite (proj2 (String.eqb_neq _ _) (not_eq_sym H)). reflexivity.
Qed.

Lemma route_matches_health : forall req,
  starts_with "/jira/" (rq_path req) = true ->
  route_matches (mkRoute (Some "GET") (PExact "/health") HHealth) req = false.
Proof.
  intros req H. unfold route_matches. cbn [rt_method rt_path path_matches].
  destruct (rq_path req) as [|c1 [|c2 p]]; cbn [starts_with] in H; rewrite ?andb_false_r in H;
    try discriminate H.
  apply andb_true_iff in H as [H1 H]. apply andb_true_iff in H as [H2 _].
  apply Ascii.eqb_eq in H1, H2. subst c1 c2.
  rewrite andb_false_r. reflexivity.
Qed.

(** A request under [/jira/] whose method is not POST skips every POST
    route and the [GET /health] route.  An OPTIONS request is answered
    204 by [cors], whatever the route table.  Any other such request goes
    to the passthrough in the first revision; in the second only when its
    path starts with ["/jira/rest/api/"], and otherwise it gets Express's
    404 page and nothing is called upstream. *)
Theorem non_post_routing : forall json_parse e req upstream,
  rq_method req <> "POST" ->
  starts_with "/jira/" (rq_path req) = true ->
  dispatch routes_v1 req = Some HGeneric
  /\ dispatch routes_v2 req = (if starts_with "/jira/rest/api/" (rq_path req) then Some HGeneric else None)
  /\ (rq_method req = "OPTIONS" ->
      forall routes, run upstream (serve json_parse e routes req) = ([], RText 204 EmptyString))
  /\ (rq_method req <> "OPTIONS" -> serve json_parse e routes_v1 req = generic_proxy json_parse req)
  /\ (rq_method req <> "OPTIONS" -> starts_with "/jira/rest/api/" (rq_path req) = false ->
      exists t, run upstream (serve json_parse e routes_v2 req) = ([], RText 404 t)).
Proof.
  intros json_parse e req upstream Hm Hj.
  assert (D1 : dispatch routes_v1 req = Some HGeneric).
  { unfold dispatch, routes_v1. cbn [find].
    rewrite (route_matches_health req Hj), !(route_matches_post _ _ req Hm).
    unfold route_matches. cbn [rt_method rt_path rt_handler andb path_matches]. rewrite Hj. reflexivity. }
  assert (D2 : dispatch routes_v2 req
               = if starts_with "/jira/rest/api/" (rq_path req) then Some HGeneric else None).
  { unfold dispatch, routes_v2. cbn [find].
    rewrite (route_matches_health req Hj), !(route_matches_post _ _ req Hm).
    unfold route_matches. cbn [rt_method rt_path rt_handler andb path_matches].
    destruct (starts_with "/jira/rest/api/" (rq_path req)); reflexivity. }
  split; [exact D1|]. split; [exact D2|]. split; [|split].
  - intros Ho routes. rewrite (serve_options _ _ _ _ Ho). reflexivity.
  - intros Ho. exact (serve_generic _ _ _ _ Ho D1).
  - intros Ho Hp. unfold serve. rewrite (proj2 (String.eqb_neq _ _) Ho), D2, Hp.
    eexists; reflexivity.
Qed.

Lemma non_post_routing_witness :
  let req := bare_request "GET" "/jira/rest/agile/1.0/board" (JObj []) in
  dispatch routes_v1 req = Some HGeneric
  /\ dispatch routes_v2 req = None
  /\ (rq_method req = "OPTIONS" ->
      forall routes, run network_down (serve json_parse_subset hr_env routes req) = ([], RText 204 EmptyString))
  /\ (rq_method req <> "OPTIONS" -> serve json_parse_subset hr_env routes_v1 req = generic_proxy json_parse_subset req)
  /\ (rq_method req <> "OPTIONS" -> starts_with "/jira/rest/api/" (rq_path req) = false ->
      exists t, run network_down (serve json_parse_subset hr_env routes_v2 req) = ([], RText 404 t)).
Proof.
  apply (non_post_routing json_parse_subset hr_env
           (bare_request "GET" "/jira/rest/agile/1.0/board" (JObj [])) network_down).
  - discriminate.
  - reflexivity.
Defined.

(** ** The upstream call of every handler *)

Lemma string_app_assoc : forall a b c, (a ++ b) ++ c = a ++ (b ++ c).
Proof. induction a as [|x a IH]; intros b c; simpl; [reflexivity|]. rewrite IH; reflexivity. Qed.

(** The credential set a handler checks before calling upstream. *)
Definition checked_creds (e : env) (h : handler_id) (req : request) : res (jval * jval * jval) :=
  if request_credentialed h then resolved_creds h req else Ok (getHRCredentials e).

(** Case analysis on every test and every [let*] of a handler body. *)
Ltac split_body H :=
  repeat (cbv beta iota zeta in H;
          match type of H with
          | context [if ?b then _ else _] => let E := fresh "E" in destruct b eqn:E
          | context [bind ?m _] => let E := fresh "E" in destruct m eqn:E
          end; cbn [bind] in H; try discriminate); try discriminate H.

(** Whenever a handler calls upstream, the credential set it checked is
    complete, the call goes to that set's server URL followed by a path,
    and its first header is [Authorization: Basic base64(username:apiToken)]
    built from that same set; every call also carries the
    [User-Agent: JIRA-Proxy-Server/1.0] header. *)
Theorem upstream_call_uses_checked_credentials : forall json_parse e h req q k,
  handle json_parse e h req = OCall q k ->
  exists su u t a,
    checked_creds e h req = Ok (su, u, t)
    /\ creds_missing su u t = false
    /\ (exists path, u_url q = to_str su ++ path)
    /\ auth_header u t = Ok a
    /\ hd_error (u_headers q) = Some ("Authorization", a)
    /\ In ("User-Agent", user_agent) (u_headers q).
Proof.
  intros json_parse e h req q k H.
  destruct h; cbv beta iota zeta delta [checked_creds request_credentialed resolved_creds];
    cbv beta iota zeta delta [handle health test_connection get_tasks_v1 get_tasks_v2 get_projects
      add_worklog get_worklogs hr_get_tasks hr_get_projects generic_proxy catch500] in H;
    try (destruct (getHRCredentials e) as [[su u] t]);
    split_body H;
    injection H as <- _;
    do 4 eexists;
    (split; [try (match goal with Ex : extractCredentials _ = _ |- _ => rewrite Ex end; cbn [bind]);
             reflexivity|]);
    (split; [assumption|]);
    (split; [eexists; cbn [u_url];
             try (match goal with Hw : worklog_url _ _ = Ok _ |- _ => rewrite (worklog_url_ok _ _ _ Hw) end);
             unfold search_url, target_url; rewrite ?string_app_assoc; reflexivity|]);
    (split; [eassumption|]);
    (split; [reflexivity|]);
    cbn [u_headers]; simpl; tauto.
Qed.

Lemma upstream_call_uses_checked_credentials_witness :
  let req := header_creds_call "GET" "/jira/rest/api/3/issue/KEY-1" in
  match handle json_parse_subset empty_env HGeneric req with
  | OCall q _ =>
      exists su u t a,
        checked_creds empty_env HGeneric req = Ok (su, u, t)
        /\ creds_missing su u t = false
        /\ (exists path, u_url q = to_str su ++ path)
        /\ auth_header u t = Ok a
        /\ hd_error (u_headers q) = Some ("Authorization", a)
        /\ In ("User-Agent", user_agent) (u_headers q)
  | ODone _ => False
  end.
Proof.
  cbv zeta.
  destruct (handle json_parse_subset empty_env HGeneric (header_creds_call "GET" "/jira/rest/api/3/issue/KEY-1"))
    as [r|q k] eqn:E.
  - exfalso.
    assert (F : match handle json_parse_subset empty_env HGeneric
                        (header_creds_call "GET" "/jira/rest/api/3/issue/KEY-1")
                with ODone _ => true | OCall _ _ => false end = false) by reflexivity.
    rewrite E in F. discriminate F.
  - exact (upstream_call_uses_checked_credentials json_parse_subset empty_env HGeneric
             (header_creds_call "GET" "/jira/rest/api/3/issue/KEY-1") q k E).
Defined.

(** ** Upstream errors *)

Lemma get_prop_defined : forall v k, v <> JUndef -> v <> JNull -> get_prop v k = Ok (opt_get v k).
Proof. intros [] k H1 H2; try reflexivity; congruence. Qed.

(** Picks the upstream call a handler makes on a concrete request. *)
Ltac take_call E q0 k0 :=
  match goal with |- context [handle ?jp ?e ?h ?req] =>
    let o := constr:(handle jp e h req) in
    destruct o as [r0|q0 k0] eqn:E;
    [exfalso;
     assert (F : match o with ODone _ => true | OCall _ _ => false end = false) by reflexivity;
     rewrite E in F; discriminate F
    | exists q0, k0; split; [reflexivity|]; try rewrite <- E]
  end.

(** When the upstream answers with a status outside 200-299, get-tasks
    (both revisions), get-projects, get-worklogs and the two HR handlers
    answer with that status and [{error: <upstream text>, status}];
    test-connection adds the upstream [statusText].  Nothing else is
    called. *)
Theorem upstream_error_status_passthrough : forall json_parse e h req q k r,
  handle json_parse e h req = OCall q k ->
  resp_ok r = false ->
  (In h [HGetTasksV1; HGetTasksV2; HGetProjects; HGetWorklogs; HHrGetTasks; HHrGetProjects] ->
     run (fun _ => Resp r) (handle json_parse e h req) = ([q], error_status_reply r))
  /\ (h = HTestConnection ->
     run (fun _ => Resp r) (handle json_parse e h req)
     = ([q], RJson (r_status r) (JObj [("error", JStr (r_text r)); ("status", JNum (r_status r));
                                        ("statusText", JStr (r_statusText r))]))).
Proof.
  intros json_parse e h req q k r H Hr.
  rewrite H. cbn [run].
  destruct h;
    cbv beta iota zeta delta [handle test_connection get_tasks_v1 get_tasks_v2 get_projects
      add_worklog get_worklogs hr_get_tasks hr_get_projects generic_proxy catch500] in H;
    try (destruct (getHRCredentials e) as [[su u] t]);
    split_body H;
    injection H as <- Hk; subst k;
    cbn [await_fetch bind]; try rewrite Hr; cbn [negb];
    (split; intros Hh; [simpl in Hh | ]);
    solve [reflexivity | intuition discriminate | discriminate].
Qed.

(** A get-projects request with its credentials in the body. *)
Definition body_creds_request (path : string) (extra : list (string * jval)) : request :=
  mkRequest "POST" path path [] []
    (JObj ([("serverUrl", JStr "https://foo.atlassian.net"); ("username", JStr "me@example.com");
            ("apiToken", JStr "secret-api-token")] ++ extra)).

Definition unauthorized : upstream_resp := mkResp 401 "Unauthorized" (Some "text/plain") "Unauthorized".

Lemma upstream_error_status_passthrough_witness :
  exists q k,
    handle json_parse_subset empty_env HGetProjects (body_creds_request "/jira/get-projects" []) = OCall q k
    /\ run (fun _ => Resp unauthorized)
           (handle json_parse_subset empty_env HGetProjects (body_creds_request "/jira/get-projects" []))
       = ([q], error_status_reply unauthorized).
Proof.
  take_call E q0 k0.
  apply (upstream_error_status_passthrough json_parse_subset empty_env HGetProjects
           (body_creds_request "/jira/get-projects" []) q0 k0 unauthorized E eq_refl).
  simpl. right; right; left. reflexivity.
Defined.

(** add-worklog's error branch: with a status outside 200-299 the reply
    keeps the upstream status, its [error] is [errorData.error ||
    errorData.errorMessages || text] and [details] is [errorData], the
    upstream text parsed as JSON, or [{error: text}] when it does not parse.
    When the text is the JSON literal [null], reading [errorData.error]
    throws and the reply is a 500. *)
Theorem add_worklog_upstream_error : forall json_parse req q k r,
  add_worklog json_parse req = OCall q k ->
  resp_ok r = false ->
  (forall v, json_parse (r_text r) = Parsed v -> v <> JUndef -> v <> JNull ->
     run (fun _ => Resp r) (add_worklog json_parse req)
     = ([q], RJson (r_status r)
               (JObj [("error", js_or (js_or (opt_get v "error") (opt_get v "errorMessages")) (JStr (r_text r)));
                      ("status", JNum (r_status r)); ("details", v)])))
  /\ (forall why, json_parse (r_text r) = ParseError why ->
     run (fun _ => Resp r) (add_worklog json_parse req)
     = ([q], RJson (r_status r)
               (JObj [("error", JStr (r_text r)); ("status", JNum (r_status r));
                      ("details", JObj [("error", JStr (r_text r))])])))
  /\ (json_parse (r_text r) = Parsed JNull ->
     run (fun _ => Resp r) (add_worklog json_parse req)
     = ([q], error500 (TypeError "Cannot read properties of null (reading 'error')")
                      "Failed to add worklog to JIRA")).
Proof.
  intros json_parse req q k r H Hr.
  rewrite H. cbn [run].
  unfold add_worklog, catch500 in H.
  split_body H.
  injection H as <- Hk; subst k.
  cbn [await_fetch bind]. rewrite Hr. cbn [negb].
  split; [|split].
  - intros v Hv H1 H2. rewrite Hv.
    rewrite !(get_prop_defined v) by assumption. cbn [bind].
    destruct (truthy (opt_get v "error")) eqn:T; cbn [bind].
    + unfold js_or. rewrite !T. reflexivity.
    + unfold js_or. rewrite !T. reflexivity.
  - intros why Hw. rewrite Hw. cbn [get_prop opt_get obj_get bind].
    rewrite String.eqb_refl.
    destruct (truthy (JStr (r_text r))) eqn:T; cbn [bind].
    + unfold js_or. rewrite T. reflexivity.
    + cbn [opt_get obj_get]. unfold js_or. simpl truthy.
      simpl in T. destruct (String.eqb (r_text r) EmptyString) eqn:T'; [|discriminate].
      apply String.eqb_eq in T'. rewrite T'. reflexivity.
  - intros Hn. rewrite Hn. reflexivity.
Qed.

Definition null_error : upstream_resp := mkResp 400 "Bad Request" (Some "application/json") "null".

Lemma add_worklog_upstream_error_witness :
  exists q k,
    handle json_parse_subset empty_env HAddWorklog (worklog_request (JStr "2h") JUndef) = OCall q k
    /\ run (fun _ => Resp null_error)
           (handle json_parse_subset empty_env HAddWorklog (worklog_request (JStr "2h") JUndef))
       = ([q], error500 (TypeError "Cannot read properties of null (reading 'error')")
                        "Failed to add worklog to JIRA").
Proof.
  take_call E q0 k0.
  exact (proj2 (proj2 (add_worklog_upstream_error json_parse_subset (worklog_request (JStr "2h") JUndef)
                         q0 k0 null_error E eq_refl)) eq_refl).
Defined.

(** ** The worklog handlers' own checks *)

(** With a complete credential set in the body, add-worklog answers 400
    [{error: "Missing required fields", message: "Provide issueKey and
    timeSpent"}] when [issueKey] or [timeSpent] is falsy, and get-worklogs
    answers 400 [{..., message: "Provide issueKey"}] when [issueKey] is
    falsy; neither calls upstream. *)
Theorem worklog_missing_fields : forall json_parse req upstream,
  rq_body req <> JUndef -> rq_body req <> JNull ->
  creds_missing (opt_get (rq_body req) "serverUrl") (opt_get (rq_body req) "username")
                (opt_get (rq_body req) "apiToken") = false ->
  (truthy (opt_get (rq_body req) "issueKey") = false \/ truthy (opt_get (rq_body req) "timeSpent") = false ->
     run upstream (add_worklog json_parse req) = ([], missing_worklog_fields))
  /\ (truthy (opt_get (rq_body req) "issueKey") = false ->
     run upstream (get_worklogs json_parse req) = ([], missing_issue_key)).
Proof.
  intros json_parse req upstream Hb1 Hb2 Hc.
  unfold add_worklog, get_worklogs. rewrite (destructure_body_ok _ Hb1 Hb2).
  cbv beta iota zeta delta [bind]. rewrite Hc.
  split.
  - intros [H|H]; rewrite H; [reflexivity|]. rewrite orb_true_r. reflexivity.
  - intros H. rewrite H. reflexivity.
Qed.

Lemma worklog_missing_fields_witness :
  run network_down (add_worklog json_parse_subset (worklog_request JUndef JUndef)) = ([], missing_worklog_fields)
  /\ (truthy (opt_get (rq_body (worklog_request JUndef JUndef)) "issueKey") = false ->
      run network_down (get_worklogs json_parse_subset (worklog_request JUndef JUndef)) = ([], missing_issue_key)).
Proof.
  split.
  - apply (proj1 (worklog_missing_fields json_parse_subset (worklog_request JUndef JUndef) network_down
                   ltac:(discriminate) ltac:(discriminate) eq_refl)).
    right. reflexivity.
  - apply (proj2 (worklog_missing_fields json_parse_subset (worklog_request JUndef JUndef) network_down
                   ltac:(discriminate) ltac:(discriminate) eq_refl)).
Defined.

(** A [timeSpent] that is truthy but not a string (a number, [true], an
    array or an object in the JSON body) makes [timeSpent.trim()] throw:
    add-worklog answers 500 and calls nothing upstream. *)
Theorem add_worklog_non_string_timeSpent : forall json_parse req upstream,
  rq_body req <> JUndef -> rq_body req <> JNull ->
  creds_missing (opt_get (rq_body req) "serverUrl") (opt_get (rq_body req) "username")
                (opt_get (rq_body req) "apiToken") = false ->
  truthy (opt_get (rq_body req) "issueKey") = true ->
  truthy (opt_get (rq_body req) "timeSpent") = true ->
  (forall s, opt_get (rq_body req) "timeSpent" <> JStr s) ->
  run upstream (add_worklog json_parse req)
  = ([], error500 (TypeError "timeSpent.trim is not a function") "Failed to add worklog to JIRA").
Proof.
  intros json_parse req upstream Hb1 Hb2 Hc Hi Ht Hs.
  unfold add_worklog. rewrite (destructure_body_ok _ Hb1 Hb2).
  cbv beta iota zeta delta [bind]. rewrite Hc, Hi, Ht. cbn [negb orb].
  destruct (opt_get (rq_body req) "timeSpent") as [| | | |s| |] eqn:E;
    try discriminate; try (exfalso; exact (Hs s eq_refl)); reflexivity.
Qed.

Lemma add_worklog_non_string_timeSpent_witness :
  run network_down (add_worklog json_parse_subset (worklog_request (JNum 2) JUndef))
  = ([], error500 (TypeError "timeSpent.trim is not a function") "Failed to add worklog to JIRA").
Proof.
  apply (add_worklog_non_string_timeSpent json_parse_subset (worklog_request (JNum 2) JUndef) network_down);
    try discriminate; try reflexivity.
Defined.

(** ** Successful answers *)





Lemma mapM_project_null : forall ps,
  (exists x, In x ps /\ (x = JNull \/ x = JUndef)) -> exists ex, mapM project ps = Throw ex.
Proof.
  induction ps as [|p ps IH]; intros (x & Hx & Hn); [destruct Hx|].
  cbn [mapM]. destruct Hx as [<-|Hx].
  - destruct Hn as [->| ->]; eexists; reflexivity.
  - destruct (project p) as [ex|y]; cbn [bind]; [eexists; reflexivity|].
    destruct (IH (ex_intro _ x (conj Hx Hn))) as [ex He]. rewrite He. eexists; reflexivity.
Qed.

(** get-projects (and the HR variant) on a 2xx JSON answer [data]: a falsy
    [data.values] gives [{projects: []}]; a truthy [data.values] that is
    not an array makes [.map] throw, and a [null] entry in the array makes
    the projection throw, both answered with 500. *)
Theorem projects_values_edge_cases : forall json_parse e h req q k r v,
  In h [HGetProjects; HHrGetProjects] ->
  handle json_parse e h req = OCall q k ->
  resp_ok r = true ->
  json_parse (r_text r) = Parsed v -> v <> JUndef -> v <> JNull ->
  (truthy (opt_get v "values") = false ->
     run (fun _ => Resp r) (handle json_parse e h req) = ([q], RJson 200 (JObj [("projects", JArr [])])))
  /\ (truthy (opt_get v "values") = true -> (forall l, opt_get v "values" <> JArr l) ->
     exists message, run (fun _ => Resp r) (handle json_parse e h req)
     = ([q], error500 (TypeError "(data.values || []).map is not a function") message))
  /\ (forall ps, opt_get v "values" = JArr ps -> In JNull ps ->
     exists ex message, run (fun _ => Resp r) (handle json_parse e h req) = ([q], error500 ex message)).
Proof.
  intros json_parse e h req q k r v Hh H Hok Hp H1 H2.
  rewrite H. cbn [run].
  simpl in Hh. destruct Hh as [<-|[<-|[]]];
    cbv beta iota zeta delta [handle get_projects hr_get_projects catch500] in H;
    try (destruct (getHRCredentials e) as [[su u] t]);
    split_body H;
    injection H as <- Hk; subst k;
    cbn [await_fetch bind]; rewrite Hok; cbn [negb];
    unfold projects_reply, resp_json; rewrite Hp; cbv beta iota; cbn [bind];
    rewrite (get_prop_defined v) by assumption; cbn [bind];
    (split; [|split]).
  all: first
    [ intros T; rewrite (js_or_falsy _ _ T); reflexivity
    | intros T Hn; rewrite (js_or_truthy _ _ T);
      destruct (opt_get v "values");
      first [exfalso; eapply Hn; reflexivity | eexists; reflexivity]
    | intros ps V Hn; rewrite V; change (js_or (JArr ps) (JArr [])) with (JArr ps); cbv iota;
      destruct (mapM_project_null ps (ex_intro _ JNull (conj Hn (or_introl eq_refl)))) as [ex Hx];
      rewrite Hx; cbn [bind]; do 2 eexists; reflexivity ].
Qed.

Definition values_with_null : string :=
  "{" ++ String dq "values" ++ String dq ":[null]}".

Lemma projects_values_edge_cases_witness :
  exists q k,
    handle json_parse_subset empty_env HGetProjects (body_creds_request "/jira/get-projects" []) = OCall q k
    /\ exists ex message,
         run (fun _ => Resp (mkResp 200 "OK" (Some "application/json") values_with_null))
             (handle json_parse_subset empty_env HGetProjects (body_creds_request "/jira/get-projects" []))
         = ([q], error500 ex message).
Proof.
  take_call E q0 k0.
  apply (proj2 (proj2 (projects_values_edge_cases json_parse_subset empty_env HGetProjects
           (body_creds_request "/jira/get-projects" []) q0 k0
           (mkResp 200 "OK" (Some "application/json") values_with_null)
           (JObj [("values", JArr [JNull])])
           ltac:(simpl; left; reflexivity) E eq_refl eq_refl ltac:(discriminate) ltac:(discriminate)))
           [JNull] eq_refl).
  simpl. left. reflexivity.
Defined.



(** ** The JQL of the get-tasks handlers *)

(** Every get-tasks handler sends [req.body?.jql] when it is truthy and
    the default query otherwise: the first revision as the [jql] field of a
    POST body, the second revision and the HR handler as the [jql]
    parameter of a GET search URL. *)
Theorem get_tasks_jql : forall json_parse e h req q k,
  handle json_parse e h req = OCall q k ->
  let jql := js_or (opt_get (rq_body req) "jql") (JStr default_jql) in
  exists su u t, checked_creds e h req = Ok (su, u, t)
  /\ (h = HGetTasksV1 ->
     u_method q = "POST" /\ u_url q = to_str su ++ "/rest/api/3/search/jql"
     /\ u_body q = UJson (JObj [("jql", jql); ("maxResults", JNum 100); ("fields", JArr (map JStr task_fields))]))
  /\ (h = HGetTasksV2 \/ h = HHrGetTasks ->
     u_method q = "GET" /\ u_url q = search_url (to_str su ++ "/rest/api/3/search/jql") (to_str jql)
     /\ u_body q = UNoBody).
Proof.
  intros json_parse e h req q k H. cbv zeta.
  destruct h; cbv beta iota zeta delta [checked_creds request_credentialed resolved_creds];
    cbv beta iota zeta delta [handle health test_connection get_tasks_v1 get_tasks_v2 get_projects
      add_worklog get_worklogs hr_get_tasks hr_get_projects generic_proxy catch500] in H;
    try (destruct (getHRCredentials e) as [[su u] t]);
    split_body H;
    injection H as <- _;
    do 3 eexists;
    (split; [try (match goal with Ex : extractCredentials _ = _ |- _ => rewrite Ex end; cbn [bind]);
             reflexivity|]);
    (split; intros Hh; [ | try destruct Hh as [Hh|Hh]]);
    try discriminate;
    try (match goal with Hj : to_string _ = Ok _ |- _ => rewrite <- (to_string_ok _ _ Hj) end);
    repeat split.
Qed.

Lemma get_tasks_jql_witness :
  exists q k,
    handle json_parse_subset empty_env HGetTasksV2 (body_creds_request "/jira/get-tasks" []) = OCall q k
    /\ u_url q = search_url ("https://foo.atlassian.net" ++ "/rest/api/3/search/jql") default_jql.
Proof.
  take_call E q0 k0.
  destruct (get_tasks_jql json_parse_subset empty_env HGetTasksV2
              (body_creds_request "/jira/get-tasks" []) q0 k0 E) as (su & u & t & Hc & _ & H2).
  vm_compute in Hc. injection Hc as <- <- <-.
  exact (proj1 (proj2 (H2 (or_introl eq_refl)))).
Defined.

(** ** The search URL *)

(** Characters of [application/x-www-form-urlencoded] output. *)
Definition form_safe (c : ascii) : bool :=
  let n := nat_of_ascii c in
  ((48 <=? n)%nat && (n <=? 57)%nat) || ((65 <=? n)%nat && (n <=? 90)%nat)
  || ((97 <=? n)%nat && (n <=? 122)%nat)
  || (n =? 42)%nat || (n =? 45)%nat || (n =? 46)%nat || (n =? 95)%nat
  || (n =? 43)%nat || (n =? 37)%nat.

Lemma get_hex_digit : forall n c, String.get n "0123456789ABCDEF" = Some c -> form_safe c = true.
Proof.
  intros n c H.
  do 16 (destruct n as [|n]; [simpl in H; injection H as <-; reflexivity|]).
  destruct n; discriminate.
Qed.

Lemma hex_digit_safe : forall n c, In c (list_ascii_of_string (hex_digit n)) -> form_safe c = true.
Proof.
  intros n c H. unfold hex_digit in H.
  destruct (String.get n "0123456789ABCDEF") as [d|] eqn:E; simpl in H; [|destruct H].
  destruct H as [<-|[]]. exact (get_hex_digit n d E).
Qed.

Lemma list_ascii_app : forall a b,
  list_ascii_of_string (a ++ b) = (list_ascii_of_string a ++ list_ascii_of_string b)%list.
Proof. induction a as [|c a IH]; intros b; simpl; [reflexivity|]. rewrite IH; reflexivity. Qed.

Lemma form_byte_safe : forall b c, In c (list_ascii_of_string (form_byte b)) -> form_safe c = true.
Proof.
  intros b c H. unfold form_byte in H.
  destruct (b =? 32)%nat eqn:E32; [simpl in H; destruct H as [<-|[]]; reflexivity|].
  destruct (_ || _) eqn:Ea.
  - simpl in H. destruct H as [<-|[]].
    assert (Hb : (b < 256)%nat).
    { apply orb_true_iff in Ea as [Ea|Ea]; repeat (apply orb_true_iff in Ea as [Ea|Ea]);
        repeat (apply andb_true_iff in Ea as [_ Ea]); apply Nat.leb_le in Ea || apply Nat.eqb_eq in Ea; lia. }
    unfold form_safe. rewrite nat_ascii_embedding by exact Hb.
    revert Ea. clear. intros Ea.
    repeat rewrite orb_true_iff in Ea. repeat rewrite orb_true_iff. tauto.
  - simpl in H. destruct H as [<-|H]; [reflexivity|].
    rewrite list_ascii_app in H. apply in_app_or in H as [H|H]; eapply hex_digit_safe; exact H.
Qed.

(** The get-tasks search URL is the base URL, [?jql=], the encoded JQL
    and the two fixed parameters; the encoded JQL holds only letters,
    digits and [* - . _ + %], so whatever the JQL contains it cannot end
    the [jql] parameter or add another ([&], [=] and [#] never occur in
    it). *)
Theorem search_url_shape : forall base jql,
  search_url base jql
  = base ++ "?jql=" ++ form_encode jql
    ++ "&maxResults=100&fields=summary%2Cstatus%2Cassignee%2Cpriority%2Cproject%2Cissuetype%2Ctimetracking%2Ccreated%2Cupdated%2Cdescription%2Cworklog"
  /\ (forall c, In c (list_ascii_of_string (form_encode jql)) -> form_safe c = true)
  /\ form_safe "&"%char = false /\ form_safe "="%char = false /\ form_safe "#"%char = false.
Proof.
  intros base jql. split; [|split; [|repeat split]].
  - reflexivity.
  - unfold form_encode. induction (utf8_bytes jql) as [|b l IH]; intros c H; [destruct H|].
    cbn [fold_right] in H. rewrite list_ascii_app in H.
    apply in_app_or in H as [H|H]; [exact (form_byte_safe b c H) | exact (IH c H)].
Qed.

Fixpoint list_eq_dec_bool (l1 l2 : list nat) : bool :=
  match l1, l2 with
  | [], [] => true
  | x :: r1, y :: r2 => Nat.eqb x y && list_eq_dec_bool r1 r2
  | _, _ => false
  end.

Lemma list_eq_dec_bool_eq : forall l1 l2, list_eq_dec_bool l1 l2 = true -> l1 = l2.
Proof.
  induction l1 as [|x l1 IH]; intros [|y l2] H; try discriminate; [reflexivity|].
  apply andb_true_iff in H as [H1 H2]. apply Nat.eqb_eq in H1. rewrite H1, (IH _ H2). reflexivity.
Qed.

(** The [application/x-www-form-urlencoded] byte parser (what
    [URLSearchParams] applies to a query string before UTF-8 decoding):
    [+] is a space, [%hh] a byte, any other character its own code. *)
Fixpoint form_decode (s : string) : list nat :=
  match s with
  | EmptyString => []
  | String c r =>
      if Ascii.eqb c "+"%char then 32%nat :: form_decode r
      else if Ascii.eqb c "%"%char then
        match r with
        | String h1 (String h2 r') =>
            match hex_val h1, hex_val h2 with
            | Some x, Some y => (x * 16 + y)%nat :: form_decode r'
            | _, _ => 37%nat :: form_decode r
            end
        | _ => 37%nat :: form_decode r
        end
      else nat_of_ascii c :: form_decode r
  end.

(** One token of the encoding: a character other than [%], or [%] and two
    hex digits. *)
Definition form_token (t : string) : bool :=
  match t with
  | String c EmptyString => negb (Ascii.eqb c "%"%char)
  | String c (String h1 (String h2 EmptyString)) =>
      Ascii.eqb c "%"%char
      && match hex_val h1, hex_val h2 with Some _, Some _ => true | _, _ => false end
  | _ => false
  end.

Lemma form_decode_token : forall t rest,
  form_token t = true -> form_decode (t ++ rest) = (form_decode t ++ form_decode rest)%list.
Proof.
  intros t rest H.
  destruct t as [|c [|h1 [|h2 [|x t]]]]; try discriminate; cbn [form_token] in H.
  - apply negb_true_iff in H. cbn [append form_decode]. rewrite H.
    destruct (Ascii.eqb c "+"%char); reflexivity.
  - apply andb_true_iff in H as [H1 H2]. apply Ascii.eqb_eq in H1. subst c.
    cbn [append form_decode]. simpl Ascii.eqb. cbv iota.
    destruct (hex_val h1), (hex_val h2); try discriminate. reflexivity.
Qed.

Lemma form_bytes_decode :
  forallb (fun b => form_token (form_byte b) && list_eq_dec_bool (form_decode (form_byte b)) [b])
    (seq 0 256) = true.
Proof. vm_compute. reflexivity. Qed.

Lemma form_decode_byte : forall b rest,
  (b < 256)%nat -> form_decode (form_byte b ++ rest) = b :: form_decode rest.
Proof.
  intros b rest Hb.
  pose proof (proj1 (forallb_forall _ _) form_bytes_decode b) as H.
  rewrite in_seq in H. specialize (H ltac:(lia)).
  apply andb_true_iff in H as [Ht He].
  rewrite (form_decode_token _ _ Ht).
  apply list_eq_dec_bool_eq in He. rewrite He. reflexivity.
Qed.

Lemma utf8_bytes_bound : forall s b, In b (utf8_bytes s) -> (b < 256)%nat.
Proof.
  induction s as [|c s IH]; intros b H; cbn [utf8_bytes] in H; [destruct H|].
  pose proof (nat_ascii_bounded c) as Hc.
  apply in_app_or in H as [H|H]; [|exact (IH b H)].
  destruct (nat_of_ascii c <? 128)%nat eqn:E; cbv beta iota in H; cbn [In] in H.
  - destruct H as [<-|[]]. apply Nat.ltb_lt in E. lia.
  - assert (nat_of_ascii c / 64 < 4)%nat by (apply Nat.Div0.div_lt_upper_bound; lia).
    assert (nat_of_ascii c mod 64 < 64)%nat by (apply Nat.mod_upper_bound; lia).
    destruct H as [<-|[<-|[]]]; lia.
Qed.

Lemma form_decode_encode : forall s, form_decode (form_encode s) = utf8_bytes s.
Proof.
  intros s. unfold form_encode.
  pose proof (utf8_bytes_bound s) as Hb. revert Hb.
  induction (utf8_bytes s) as [|b l IH]; intros Hb; [reflexivity|].
  cbn [fold_right]. rewrite form_decode_byte by (apply Hb; left; reflexivity).
  rewrite IH; [reflexivity|]. intros x Hx. apply Hb. right. exact Hx.
Qed.

Lemma utf8_bytes_injective : forall s1 s2, utf8_bytes s1 = utf8_bytes s2 -> s1 = s2.
Proof.
  induction s1 as [|c1 s1 IH]; intros [|c2 s2] H; cbn [utf8_bytes] in H.
  - reflexivity.
  - destruct (nat_of_ascii c2 <? 128)%nat; discriminate.
  - destruct (nat_of_ascii c1 <? 128)%nat; discriminate.
  - pose proof (nat_ascii_bounded c1) as B1. pose proof (nat_ascii_bounded c2) as B2.
    assert (Hc : nat_of_ascii c1 = nat_of_ascii c2 /\ utf8_bytes s1 = utf8_bytes s2).
    { destruct (nat_of_ascii c1 <? 128)%nat eqn:E1, (nat_of_ascii c2 <? 128)%nat eqn:E2;
        cbv beta iota in H; cbn [app] in H;
        pose proof (f_equal (hd 0%nat) H) as Hx; cbn [hd] in Hx;
        pose proof (f_equal (@tl nat) H) as Ht; cbn [tl] in Ht.
      - split; [exact Hx | exact Ht].
      - apply Nat.ltb_lt in E1. lia.
      - apply Nat.ltb_lt in E2. lia.
      - pose proof (f_equal (hd 0%nat) Ht) as Hy; cbn [hd] in Hy.
        pose proof (f_equal (@tl nat) Ht) as Hr; cbn [tl] in Hr.
        split; [|exact Hr].
        rewrite (Nat.div_mod_eq (nat_of_ascii c1) 64), (Nat.div_mod_eq (nat_of_ascii c2) 64). lia. }
    destruct Hc as [Hc Hr].
    rewrite <- (ascii_nat_embedding c1), <- (ascii_nat_embedding c2), Hc, (IH s2 Hr).
    reflexivity.
Qed.

Lemma string_app_cancel_l : forall p a b, p ++ a = p ++ b -> a = b.
Proof. induction p as [|c p IH]; intros a b H; [exact H|]. injection H as H. exact (IH _ _ H). Qed.

Lemma string_app_cancel_r : forall a b t, a ++ t = b ++ t -> a = b.
Proof.
  intros a b t H.
  apply (f_equal list_ascii_of_string) in H. rewrite !list_ascii_app in H.
  apply app_inv_tail in H.
  rewrite <- (string_of_list_ascii_of_string a), <- (string_of_list_ascii_of_string b), H.
  reflexivity.
Qed.

(** The search URL determines the JQL: two queries whose strings differ
    give different get-tasks URLs (the encoding loses nothing). *)
Theorem search_url_injective : forall base jql1 jql2,
  search_url base jql1 = search_url base jql2 -> jql1 = jql2.
Proof.
  intros base jql1 jql2 H. unfold search_url in H. cbn [search_params] in H.
  do 4 apply string_app_cancel_l in H.
  apply string_app_cancel_r in H.
  apply utf8_bytes_injective.
  rewrite <- !form_decode_encode, H. reflexivity.
Qed.

Lemma search_url_injective_witness :
  "project = KEY" = "project = KEY".
Proof.
  apply (search_url_injective "https://foo.atlassian.net/rest/api/3/search/jql").
  reflexivity.
Defined.

(** ** add-worklog's [timeSpent] and [comment] *)




(** A comment that is truthy but not a string (a number, [true], an array
    or an object) makes [comment.trim()] throw once every check has
    passed and the worklog URL and [Authorization] header are built:
    add-worklog answers 500 and calls nothing upstream. *)
Theorem add_worklog_non_string_comment : forall json_parse req fs ts url t a upstream,
  rq_body req = JObj fs ->
  creds_missing (obj_get fs "serverUrl") (obj_get fs "username") (obj_get fs "apiToken") = false ->
  truthy (obj_get fs "issueKey") = true ->
  obj_get fs "timeSpent" = JStr ts -> ts <> EmptyString -> timeSpent_valid ts = true ->
  worklog_url (obj_get fs "serverUrl") (obj_get fs "issueKey") = Ok url ->
  mask (obj_get fs "apiToken") = Ok t ->
  auth_header (obj_get fs "username") (obj_get fs "apiToken") = Ok a ->
  truthy (obj_get fs "comment") = true -> (forall c, obj_get fs "comment" <> JStr c) ->
  run upstream (add_worklog json_parse req)
  = ([], error500 (TypeError "comment.trim is not a function") "Failed to add worklog to JIRA").
Proof.
  intros json_parse req fs ts url t a upstream Hb Hc Hik Hts Hne Hv Hu Hm Ha Hct Hcs.
  assert (Htr : truthy (JStr ts) = true).
  { simpl. destruct (String.eqb_spec ts EmptyString); [contradiction | reflexivity]. }
  unfold add_worklog. rewrite Hb.
  cbv beta iota zeta delta [catch500 bind destructure_body opt_get].
  rewrite Hts, Hc, Hik, Htr. cbv beta iota delta [negb orb js_trim].
  unfold timeSpent_valid in Hv. rewrite Hv. cbv beta iota delta [negb].
  rewrite Hu. cbv beta iota. rewrite Hm. cbv beta iota. rewrite Ha. cbv beta iota.
  unfold worklogPayload. rewrite Hct.
  destruct (obj_get fs "comment") as [| | | |c| |] eqn:E;
    try discriminate; try (exfalso; exact (Hcs c eq_refl)); reflexivity.
Qed.

Lemma add_worklog_non_string_comment_witness :
  run network_down (add_worklog json_parse_subset (worklog_request (JStr "2h") (JNum 7)))
  = ([], error500 (TypeError "comment.trim is not a function") "Failed to add worklog to JIRA").
Proof.
  apply (add_worklog_non_string_comment json_parse_subset (worklog_request (JStr "2h") (JNum 7))
           (match rq_body (worklog_request (JStr "2h") (JNum 7)) with JObj fs => fs | _ => [] end)
           "2h" "https://foo.atlassian.net/rest/api/3/issue/KEY-1/worklog" "secr...oken"
           (basic_auth "me@example.com" "secret-api-token"));
    try reflexivity; discriminate.
Defined.

(** ** Successful searches *)




(** ** The Basic authorization header *)

(** Position of a character in the base64 alphabet. *)
Fixpoint index_in (c : ascii) (s : string) : nat :=
  match s with
  | EmptyString => 0
  | String d r => if Ascii.eqb c d then 0 else S (index_in c r)
  end.

Definition b64_index (c : ascii) : nat := index_in c b64_alphabet.

(** Base64 decoding of a padded text into bytes. *)
Fixpoint b64_decode (s : string) : list nat :=
  match s with
  | String c0 (String c1 (String c2 (String c3 r))) =>
      let i0 := b64_index c0 in
      let i1 := b64_index c1 in
      let i2 := b64_index c2 in
      let i3 := b64_index c3 in
      if Ascii.eqb c2 "="%char then [i0 * 4 + i1 / 16]
      else if Ascii.eqb c3 "="%char then [i0 * 4 + i1 / 16; (i1 mod 16) * 16 + i2 / 4]
      else (i0 * 4 + i1 / 16) :: ((i1 mod 16) * 16 + i2 / 4) :: ((i2 mod 4) * 64 + i3) :: b64_decode r
  | _ => []
  end%nat.

Lemma b64_chars :
  forallb (fun n => match b64_char n with
                    | String c EmptyString => Nat.eqb (b64_index c) n && negb (Ascii.eqb c "="%char)
                    | _ => false
                    end) (seq 0 64) = true.
Proof. vm_compute. reflexivity. Qed.

Lemma b64_char_spec : forall n, (n < 64)%nat ->
  exists c, b64_char n = String c EmptyString /\ b64_index c = n /\ Ascii.eqb c "="%char = false.
Proof.
  intros n Hn.
  pose proof (proj1 (forallb_forall _ _) b64_chars n) as H.
  rewrite in_seq in H. specialize (H ltac:(lia)).
  destruct (b64_char n) as [|c [|d r]]; try discriminate.
  apply andb_true_iff in H as [H1 H2]. apply Nat.eqb_eq in H1. apply negb_true_iff in H2.
  exists c. repeat split; assumption.
Qed.

Lemma div_mod_small : forall x y n, (y < n)%nat -> ((x * n + y) / n = x /\ (x * n + y) mod n = y)%nat.
Proof.
  intros x y n H. split.
  - symmetry. apply (Nat.div_unique _ _ _ y); lia.
  - symmetry. apply (Nat.mod_unique _ _ x); lia.
Qed.

Ltac b64_digit n :=
  let c := fresh "c" in let Hc := fresh "Hc" in let Hi := fresh "Hi" in let He := fresh "He" in
  destruct (b64_char_spec n ltac:(lia)) as (c & Hc & Hi & He); rewrite Hc.

Lemma b64_bytes_decode : forall l, (forall x, In x l -> (x < 256)%nat) -> b64_decode (b64_bytes l) = l.
Proof.
  intros l. remember (length l) as n. revert l Heqn.
  induction n as [n IH] using lt_wf_ind. intros l Hn Hb.
  assert (Hd : forall a, (a < 256)%nat -> (a / 4 < 64 /\ a mod 4 < 4 /\ a / 4 * 4 + a mod 4 = a)%nat).
  { intros a Ha. pose proof (Nat.div_mod_eq a 4). pose proof (Nat.mod_upper_bound a 4).
    split; [apply Nat.Div0.div_lt_upper_bound|split]; lia. }
  assert (Hd16 : forall b, (b < 256)%nat -> (b / 16 < 16 /\ b mod 16 < 16 /\ b / 16 * 16 + b mod 16 = b)%nat).
  { intros b Hb'. pose proof (Nat.div_mod_eq b 16). pose proof (Nat.mod_upper_bound b 16).
    split; [apply Nat.Div0.div_lt_upper_bound|split]; lia. }
  assert (Hd64 : forall c, (c < 256)%nat -> (c / 64 < 4 /\ c mod 64 < 64 /\ c / 64 * 64 + c mod 64 = c)%nat).
  { intros c Hc'. pose proof (Nat.div_mod_eq c 64). pose proof (Nat.mod_upper_bound c 64).
    split; [apply Nat.Div0.div_lt_upper_bound|split]; lia. }
  destruct l as [|a [|b [|c r]]]; [reflexivity| | |].
  - assert (Ha : (a < 256)%nat) by (apply Hb; left; reflexivity).
    destruct (Hd a Ha) as (A1 & A2 & A3).
    cbn [b64_bytes].
    b64_digit (a / 4)%nat. b64_digit (a mod 4 * 16)%nat.
    cbn [append b64_decode]. cbv zeta. simpl (Ascii.eqb "="%char "="%char). cbv iota.
    rewrite Hi, Hi0. destruct (div_mod_small (a mod 4) 0 16 ltac:(lia)) as [D1 _].
    rewrite Nat.add_0_r in D1. rewrite D1, A3. reflexivity.
  - assert (Ha : (a < 256)%nat) by (apply Hb; left; reflexivity).
    assert (Hb2 : (b < 256)%nat) by (apply Hb; right; left; reflexivity).
    destruct (Hd a Ha) as (A1 & A2 & A3). destruct (Hd16 b Hb2) as (B1 & B2 & B3).
    cbn [b64_bytes].
    b64_digit (a / 4)%nat. b64_digit (a mod 4 * 16 + b / 16)%nat. b64_digit (b mod 16 * 4)%nat.
    cbn [append b64_decode]. cbv zeta. rewrite He1. simpl (Ascii.eqb "="%char "="%char). cbv iota.
    rewrite Hi, Hi0, Hi1.
    destruct (div_mod_small (a mod 4) (b / 16) 16 B1) as [D1 D2].
    destruct (div_mod_small (b mod 16) 0 4 ltac:(lia)) as [D3 _].
    rewrite Nat.add_0_r in D3. rewrite D1, D2, D3, A3, B3. reflexivity.
  - assert (Ha : (a < 256)%nat) by (apply Hb; left; reflexivity).
    assert (Hb2 : (b < 256)%nat) by (apply Hb; right; left; reflexivity).
    assert (Hc3 : (c < 256)%nat) by (apply Hb; right; right; left; reflexivity).
    destruct (Hd a Ha) as (A1 & A2 & A3). destruct (Hd16 b Hb2) as (B1 & B2 & B3).
    destruct (Hd64 c Hc3) as (C1 & C2 & C3).
    cbn [b64_bytes].
    b64_digit (a / 4)%nat. b64_digit (a mod 4 * 16 + b / 16)%nat.
    b64_digit (b mod 16 * 4 + c / 64)%nat. b64_digit (c mod 64)%nat.
    cbn [append b64_decode]. cbv zeta. rewrite He1, He2. cbv iota.
    rewrite Hi, Hi0, Hi1, Hi2.
    destruct (div_mod_small (a mod 4) (b / 16) 16 B1) as [D1 D2].
    destruct (div_mod_small (b mod 16) (c / 64) 4 C1) as [D3 D4].
    rewrite D1, D2, D3, D4, A3, B3, C3.
    rewrite (IH (length r)); [reflexivity | simpl in Hn; lia | reflexivity |].
    intros x Hx. apply Hb. right; right; right. exact Hx.
Qed.

Lemma auth_header_spec : forall username apiToken,
  auth_header username apiToken
  = if str_throws username || str_throws apiToken
    then Throw (TypeError "Cannot convert object to primitive value")
    else Ok (basic_auth (to_str username) (to_str apiToken)).
Proof.
  intros username apiToken. unfold auth_header, to_string.
  destruct (str_throws username), (str_throws apiToken); reflexivity.
Qed.

(** For a username and token that convert to strings, the
    [Authorization] value is ["Basic "] followed by a base64 text that
    decodes to the UTF-8 bytes of [username:apiToken]; another pair gives
    the same header exactly when it converts too and its
    [username:apiToken] string is the same (a colon in the username makes
    different pairs collide: ["a:b"]/["c"] and ["a"]/["b:c"]). *)
Theorem auth_header_round_trip : forall username apiToken,
  str_throws username = false -> str_throws apiToken = false ->
  exists enc, auth_header username apiToken = Ok ("Basic " ++ enc)
  /\ b64_decode enc = utf8_bytes (to_str username ++ ":" ++ to_str apiToken)
  /\ (forall username' apiToken',
        auth_header username' apiToken' = auth_header username apiToken
        <-> (to_str username' ++ ":" ++ to_str apiToken' = to_str username ++ ":" ++ to_str apiToken
             /\ str_throws username' = false /\ str_throws apiToken' = false)).
Proof.
  intros username apiToken Hu Ht.
  assert (Hdec : forall s, b64_decode (base64 s) = utf8_bytes s).
  { intros s. apply b64_bytes_decode, utf8_bytes_bound. }
  exists (base64 (to_str username ++ ":" ++ to_str apiToken)).
  rewrite auth_header_spec, Hu, Ht. cbn [orb].
  split; [reflexivity|]. split; [apply Hdec|].
  intros username' apiToken'. rewrite auth_header_spec.
  destruct (str_throws username'), (str_throws apiToken'); cbn [orb];
    split; intros H;
    try discriminate H;
    try (destruct H as (_ & H1 & H2); discriminate).
  - unfold basic_auth in H. injection H as H.
    split; [|split; reflexivity].
    apply utf8_bytes_injective. apply (f_equal b64_decode) in H. rewrite !Hdec in H. exact H.
  - destruct H as (H & _ & _). unfold basic_auth. rewrite H. reflexivity.
Qed.

Lemma auth_header_round_trip_witness :
  exists enc, auth_header (JStr "me@example.com") (JStr "secret-api-token") = Ok ("Basic " ++ enc)
  /\ b64_decode enc = utf8_bytes ("me@example.com" ++ ":" ++ "secret-api-token")
  /\ (forall username' apiToken',
        auth_header username' apiToken' = auth_header (JStr "me@example.com") (JStr "secret-api-token")
        <-> (to_str username' ++ ":" ++ to_str apiToken' = "me@example.com" ++ ":" ++ "secret-api-token"
             /\ str_throws username' = false /\ str_throws apiToken' = false)).
Proof.
  exact (auth_header_round_trip (JStr "me@example.com") (JStr "secret-api-token") eq_refl eq_refl).
Defined.

(** ** Network failures *)

(** When the call itself fails (node-fetch rejects), every handler answers
    500 with [{error: String(err), message}], its own fixed message. *)
Theorem network_error_gives_500 : forall json_parse e h req q k err,
  handle json_parse e h req = OCall q k ->
  exists message,
    run (fun _ => NetErr err) (handle json_parse e h req) = ([q], error500 (Raised err) message).
Proof.
  intros json_parse e h req q k err H.
  rewrite H. cbn [run].
  destruct h;
    cbv beta iota zeta delta [handle test_connection get_tasks_v1 get_tasks_v2 get_projects
      add_worklog get_worklogs hr_get_tasks hr_get_projects generic_proxy catch500] in H;
    try (destruct (getHRCredentials e) as [[su u] t]);
    split_body H;
    injection H as <- Hk; subst k;
    eexists; reflexivity.
Qed.

Lemma network_error_gives_500_witness :
  exists q k,
    handle json_parse_subset hr_env HHrGetProjects (bare_request "POST" "/jira/hr/get-projects" (JObj [])) = OCall q k
    /\ exists message,
         run (fun _ => NetErr "FetchError: getaddrinfo ENOTFOUND")
             (handle json_parse_subset hr_env HHrGetProjects (bare_request "POST" "/jira/hr/get-projects" (JObj [])))
         = ([q], error500 (Raised "FetchError: getaddrinfo ENOTFOUND") message).
Proof.
  take_call E q0 k0.
  exact (network_error_gives_500 json_parse_subset hr_env HHrGetProjects
           (bare_request "POST" "/jira/hr/get-projects" (JObj [])) q0 k0
           "FetchError: getaddrinfo ENOTFOUND" E).
Defined.
